(** * Mergington High School activities API: the persistent store and its
      three mutating operations

    A shallow embedding of [src/app.py]: the two SQLModel tables
    ([Activity], [Participant]), the SQLAlchemy session the handlers open
    ([with Session(engine) as session]), the seeder run at startup and the
    two endpoints that change the store, [signup_for_activity] and
    [unregister_from_activity], and the listing [GET /activities]
    returns.  The properties proved below are the
    capacity and uniqueness invariants over every reachable store, the
    error paths of the endpoints, and what a successful call does to the
    tables. *)

From Stdlib Require Import ZArith List String Bool Lia Sorted.
Import ListNotations.

#[local] Open Scope Z_scope.
#[local] Open Scope string_scope.

(** ** Tables

    A stored row always has its primary key: [id] is [Optional[int]] in the
    classes only because a transient object has [id = None] until the
    session flushes it.  Transient objects are represented by the arguments
    of the constructor call (see [add_Activity], [add_Participant]). *)

Module Activity.
Record t : Type := mk {
  id : Z;
  name : string;
  description : string;
  schedule : string;
  max_participants : Z
}.
End Activity.

Module Participant.
Record t : Type := mk {
  id : Z;
  activity_id : Z;
  email : string
}.
End Participant.

(** The database file: both tables, each in rowid order, which is the order
    in which SQLite returns the rows of the queries of this program (a scan
    of the table, or a walk of the [email] index restricted to one email,
    whose entries are ordered by rowid). *)
Record Store : Type := mkStore {
  activities : list Activity.t;
  participants : list Participant.t
}.

Definition empty_store : Store := mkStore [] [].

(** ** Exceptions *)

Inductive exn : Type :=
| HTTPException (status_code : Z) (detail : string)
| IntegrityError      (* the unique index on [Activity.name] refuses an insert *)
| InvalidRequestError (* [session.refresh] on an object whose row is gone *).

Inductive outcome (A : Type) : Type :=
| Returned (a : A)
| Raised (e : exn).
Arguments Returned {A} a.
Arguments Raised {A} e.

(** ** Values the handlers build

    A Python dict with string keys, as the list of its items in insertion
    order: [d[k] = v] replaces the value of a key already present, where it
    stands, and puts a new key last. *)
Definition dict (V : Type) : Type := list (string * V).

Fixpoint dict_set {V} (k : string) (v : V) (d : dict V) : dict V :=
  match d with
  | [] => [(k, v)]
  | (k', v') :: rest =>
      if k' =? k then (k', v) :: rest else (k', v') :: dict_set k v rest
  end.

Fixpoint dict_get {V} (d : dict V) (k : string) : option V :=
  match d with
  | [] => None
  | (k', v) :: rest => if k' =? k then Some v else dict_get rest k
  end.

(** The inner dict [activities_to_dict] builds for one activity, a field
    per key. *)
Module View.
Record t : Type := mk {
  description : string;
  schedule : string;
  max_participants : Z;
  participants : list string
}.
End View.

(** ** Keys

    Keys are 64-bit integers in SQLite.  Past the largest one the engine
    no longer counts up: it draws candidate keys at random until one is
    not in use.  Which key it ends up with is the engine's business, so it
    is a parameter of everything below; all that is known of it is that no
    row has it.  (The engine gives up with SQLITE_FULL when its draws keep
    colliding; like any fault of the engine this is left out.) *)
Definition max_rowid : Z := 9223372036854775807.

Class Engine : Type := {
  random_rowid : list Z -> Z;
  random_rowid_unused : forall ids, ~ In (random_rowid ids) ids
}.

(** A table is kept in key order: a new row goes before the first row
    with a larger key, which is the end of the table when its key is
    above all the others. *)
Fixpoint insert_by_key {A} (key : A -> Z) (row : A) (l : list A) : list A :=
  match l with
  | [] => [row]
  | x :: rest =>
      if (key row <? key x)%Z then row :: x :: rest
      else x :: insert_by_key key row rest
  end.

(** The engine of the concrete runs: past the largest key it offers
    648803432001634345 while that key is free, and otherwise a key above
    all those in use. *)
Definition sample_random_rowid (ids : list Z) : Z :=
  if existsb (Z.eqb 648803432001634345) ids
  then fold_right Z.max 0 ids + 1
  else 648803432001634345.

(** ** The session

    [committed] is the content of the database file, [working] is what the
    open transaction sees.  An insert or delete is applied to [working] as
    soon as it is issued: SQLAlchemy defers it to the next flush, but it
    flushes before every query and every commit, keeps the order of the
    [add] calls within a table, and the two tables allocate their keys
    independently, so no statement of this program can tell the
    difference.  Only [commit] moves [working] into [committed]; leaving
    the [with] block, normally or by an exception, drops whatever was not
    committed. *)
Record Session : Type := mkSession {
  committed : Store;
  working : Store
}.

Definition Tx (A : Type) : Type := Session -> Session * outcome A.

Definition ret {A} (a : A) : Tx A := fun ss => (ss, Returned a).

Definition bind {A B} (c : Tx A) (k : A -> Tx B) : Tx B :=
  fun ss =>
    match c ss with
    | (ss', Returned a) => k a ss'
    | (ss', Raised e) => (ss', Raised e)
    end.

Definition raise {A} (e : exn) : Tx A := fun ss => (ss, Raised e).

Declare Scope tx_scope.
Delimit Scope tx_scope with tx.
Notation "x <- c ;; k" := (bind c (fun x => k))
  (at level 61, c at next level, right associativity) : tx_scope.
Notation "c ;;; k" := (bind c (fun _ => k))
  (at level 61, right associativity) : tx_scope.
#[local] Open Scope tx_scope.

(** [with Session(engine) as session: body] *)
Definition with_Session {A} (body : Tx A) (s : Store) : Store * outcome A :=
  let (ss, r) := body (mkSession s s) in (committed ss, r).

(** [session.exec(select(Activity).where(...))] and its [Participant]
    counterpart, then [.all()] and [.first()] on the result. *)
Definition select_Activity (where_ : Activity.t -> bool) : Tx (list Activity.t) :=
  fun ss => (ss, Returned (filter where_ (activities (working ss)))).

Definition select_Participant (where_ : Participant.t -> bool) : Tx (list Participant.t) :=
  fun ss => (ss, Returned (filter where_ (participants (working ss)))).

Definition all {A} (q : Tx (list A)) : Tx (list A) := q.

Definition first {A} (q : Tx (list A)) : Tx (option A) :=
  rows <- q ;; ret (hd_error rows).

Section Program.
Context {engine : Engine}.

(** The key SQLite gives a row inserted without one into a table whose
    primary key is an [INTEGER PRIMARY KEY] column: 1 in an empty table,
    otherwise one more than the largest key in use; when the largest key
    is [max_rowid] already, a key the engine picks at random among those
    not in use. *)
Definition next_rowid (ids : list Z) : Z :=
  match ids with
  | [] => 1
  | i :: rest =>
      let largest := fold_right Z.max i rest in
      if (largest <? max_rowid)%Z then largest + 1 else random_rowid ids
  end.

(** [session.add(Activity(name=..., description=..., schedule=...,
    max_participants=...))]; the result is the object once flushed. *)
Definition add_Activity (name description schedule : string) (max_participants : Z)
  : Tx Activity.t :=
  fun ss =>
    let w := working ss in
    if existsb (fun a => Activity.name a =? name) (activities w)
    then (ss, Raised IntegrityError)
    else
      let row := Activity.mk (next_rowid (map Activity.id (activities w)))
                             name description schedule max_participants in
      (mkSession (committed ss)
         (mkStore (insert_by_key Activity.id row (activities w)) (participants w)),
       Returned row).

(** [session.add(Participant(activity_id=..., email=...))] *)
Definition add_Participant (activity_id : Z) (email : string) : Tx Participant.t :=
  fun ss =>
    let w := working ss in
    let row := Participant.mk (next_rowid (map Participant.id (participants w)))
                              activity_id email in
    (mkSession (committed ss)
       (mkStore (activities w) (insert_by_key Participant.id row (participants w))),
     Returned row).

(** [session.delete(participant)]: [DELETE FROM participant WHERE id = ?] *)
Definition delete_Participant (p : Participant.t) : Tx unit :=
  fun ss =>
    let w := working ss in
    (mkSession (committed ss)
       (mkStore (activities w)
          (filter (fun q => negb (Participant.id q =? Participant.id p)%Z)
                  (participants w))),
     Returned tt).

(** [session.commit()] *)
Definition commit : Tx unit :=
  fun ss => (mkSession (working ss) (working ss), Returned tt).

(** [session.refresh(activity)]: the row is read again by primary key. *)
Definition refresh_Activity (a : Activity.t) : Tx Activity.t :=
  fun ss =>
    match find (fun b => (Activity.id b =? Activity.id a)%Z) (activities (working ss)) with
    | Some b => (ss, Returned b)
    | None => (ss, Raised InvalidRequestError)
    end.

(** A Python [for] loop whose body runs in the session. *)
Fixpoint for_each {A} (l : list A) (body : A -> Tx unit) : Tx unit :=
  match l with
  | [] => ret tt
  | x :: rest => body x ;;; for_each rest body
  end.

(** ** The seeder *)

Record seed_entry : Type := mkSeed {
  seed_description : string;
  seed_schedule : string;
  seed_max_participants : Z;
  seed_participants : list string
}.

(** The dict literal [initial] of [seed_initial_activities], in insertion
    order (the order [initial.items()] yields). *)
Definition initial : list (string * seed_entry) :=
  [ ("Chess Club",
     mkSeed "Learn strategies and compete in chess tournaments"
            "Fridays, 3:30 PM - 5:00 PM" 12
            ["michael@mergington.edu"; "daniel@mergington.edu"]);
    ("Programming Class",
     mkSeed "Learn programming fundamentals and build software projects"
            "Tuesdays and Thursdays, 3:30 PM - 4:30 PM" 20
            ["emma@mergington.edu"; "sophia@mergington.edu"]);
    ("Gym Class",
     mkSeed "Physical education and sports activities"
            "Mondays, Wednesdays, Fridays, 2:00 PM - 3:00 PM" 30
            ["john@mergington.edu"; "olivia@mergington.edu"]);
    ("Soccer Team",
     mkSeed "Join the school soccer team and compete in matches"
            "Tuesdays and Thursdays, 4:00 PM - 5:30 PM" 22
            ["liam@mergington.edu"; "noah@mergington.edu"]);
    ("Basketball Team",
     mkSeed "Practice and play basketball with the school team"
            "Wednesdays and Fridays, 3:30 PM - 5:00 PM" 15
            ["ava@mergington.edu"; "mia@mergington.edu"]);
    ("Art Club",
     mkSeed "Explore your creativity through painting and drawing"
            "Thursdays, 3:30 PM - 5:00 PM" 15
            ["amelia@mergington.edu"; "harper@mergington.edu"]);
    ("Drama Club",
     mkSeed "Act, direct, and produce plays and performances"
            "Mondays and Wednesdays, 4:00 PM - 5:30 PM" 20
            ["ella@mergington.edu"; "scarlett@mergington.edu"]);
    ("Math Club",
     mkSeed "Solve challenging problems and participate in math competitions"
            "Tuesdays, 3:30 PM - 4:30 PM" 10
            ["james@mergington.edu"; "benjamin@mergington.edu"]);
    ("Debate Team",
     mkSeed "Develop public speaking and argumentation skills"
            "Fridays, 4:00 PM - 5:30 PM" 12
            ["charlotte@mergington.edu"; "henry@mergington.edu"]) ].

Definition seed_initial_activities : Store -> Store * outcome unit :=
  with_Session (
    existing <- first (select_Activity (fun _ => true)) ;;
    match existing with
    | Some _ => ret tt
    | None =>
        for_each initial (fun item =>
          let (name, data) := item in
          activity <- add_Activity name (seed_description data)
                                   (seed_schedule data)
                                   (seed_max_participants data) ;;
          commit ;;;
          activity <- refresh_Activity activity ;;
          for_each (seed_participants data) (fun email =>
            add_Participant (Activity.id activity) email ;;; ret tt)) ;;;
        commit
    end).

(** ** The endpoints *)

(** [POST /activities/{activity_name}/signup] *)
Definition signup_for_activity (activity_name email : string)
  : Store -> Store * outcome string :=
  with_Session (
    activity <- first (select_Activity (fun a => Activity.name a =? activity_name)) ;;
    match activity with
    | None => raise (HTTPException 404 "Activity not found")
    | Some activity =>
        participants <- all (select_Participant (fun p =>
                          (Participant.activity_id p =? Activity.id activity)%Z)) ;;
        if existsb (String.eqb email) (map Participant.email participants)
        then raise (HTTPException 400 "Student is already signed up")
        else if (Z.of_nat (List.length participants) >=? Activity.max_participants activity)%Z
        then raise (HTTPException 400 "Activity is full")
        else
          add_Participant (Activity.id activity) email ;;;
          commit ;;;
          ret ("Signed up " ++ email ++ " for " ++ activity_name)
    end).

(** [DELETE /activities/{activity_name}/unregister] *)
Definition unregister_from_activity (activity_name email : string)
  : Store -> Store * outcome string :=
  with_Session (
    activity <- first (select_Activity (fun a => Activity.name a =? activity_name)) ;;
    match activity with
    | None => raise (HTTPException 404 "Activity not found")
    | Some activity =>
        participant <- first (select_Participant (fun p =>
                         (Participant.activity_id p =? Activity.id activity)%Z
                         && (Participant.email p =? email))) ;;
        match participant with
        | None => raise (HTTPException 400 "Student is not signed up for this activity")
        | Some participant =>
            delete_Participant participant ;;;
            commit ;;;
            ret ("Unregistered " ++ email ++ " from " ++ activity_name)
        end
    end).

(** ** Reading the store

    The two queries of the endpoints, run on a store outside any session:
    the row [select(Activity).where(Activity.name == activity_name)]
    returns first, and the rows [select(Participant).where(
    Participant.activity_id == activity.id)] returns. *)
Definition named_activity (s : Store) (activity_name : string) : option Activity.t :=
  hd_error (filter (fun a => Activity.name a =? activity_name) (activities s)).

Definition participants_of (s : Store) (a : Activity.t) : list Participant.t :=
  filter (fun p => (Participant.activity_id p =? Activity.id a)%Z) (participants s).

(** [email] is signed up for [a]: some Participant row links the two. *)
Definition signed_up (s : Store) (a : Activity.t) (email : string) : Prop :=
  exists p, In p (participants s)
            /\ Participant.activity_id p = Activity.id a
            /\ Participant.email p = email.

(** The row a successful signup inserts. *)
Definition signup_row (s : Store) (a : Activity.t) (email : string) : Participant.t :=
  Participant.mk (next_rowid (map Participant.id (participants s)))
                 (Activity.id a) email.

(** The store after the first start of the process, and the requests that
    change it. *)
Definition seeded : Store := fst (seed_initial_activities empty_store).

Inductive request : Type :=
| Signup (activity_name email : string)
| Unregister (activity_name email : string).

Definition handle (r : request) (s : Store) : Store :=
  match r with
  | Signup n e => fst (signup_for_activity n e s)
  | Unregister n e => fst (unregister_from_activity n e s)
  end.

(** Primary keys of the Participant table are pairwise distinct. *)
Definition participant_keys_distinct (s : Store) : Prop :=
  NoDup (map Participant.id (participants s)).

(** The pair a Participant row stands for. *)
Definition signup_pair (p : Participant.t) : Z * string :=
  (Participant.activity_id p, Participant.email p).

(** Every activity has at most max_participants participants. *)
Definition within_capacity (s : Store) : Prop :=
  forall a, In a (activities s) ->
    (Z.of_nat (List.length (participants_of s a)) <= Activity.max_participants a)%Z.

(** No (activity_id, email) pair is carried by two Participant rows. *)
Definition no_duplicate_signup (s : Store) : Prop :=
  NoDup (map signup_pair (participants s)).

(** The Chess Club row of the seeded store, and small stores used to run
    the theorems on concrete inputs. *)
Definition chess_club : Activity.t :=
  Activity.mk 1 "Chess Club" "Learn strategies and compete in chess tournaments"
              "Fridays, 3:30 PM - 5:00 PM" 12.

Definition duet : Activity.t := Activity.mk 1 "Duet" "Two voices" "Mondays" 2.

Definition duet_full : Store :=
  mkStore [duet] [Participant.mk 1 1 "ava@mergington.edu";
                  Participant.mk 2 1 "mia@mergington.edu"].

(** A store whose one Participant row has the largest key there is. *)
Definition duet_at_limit : Store :=
  mkStore [duet] [Participant.mk max_rowid 1 "ava@mergington.edu"].

(** An activity left at the default capacity. *)
Definition closed_club : Activity.t := Activity.mk 1 "Closed" "" "" 0.

(** A run of requests from the seeded store: two signups, one of them
    refused, and an unregister. *)
Definition sample_run : Store :=
  handle (Unregister "Chess Club" "michael@mergington.edu")
    (handle (Signup "Math Club" "zoe@mergington.edu")
       (handle (Signup "Math Club" "james@mergington.edu") seeded)).

(** ** The listing *)

(** A Python [for] loop that updates a local variable, here the dict
    [result]. *)
Fixpoint for_each_fold {A R} (l : list A) (acc : R) (body : R -> A -> Tx R) : Tx R :=
  match l with
  | [] => ret acc
  | x :: rest => acc' <- body acc x ;; for_each_fold rest acc' body
  end.

(** [activities_to_dict], which is all [GET /activities] returns. *)
Definition activities_to_dict : Store -> Store * outcome (dict View.t) :=
  with_Session (
    activities <- all (select_Activity (fun _ => true)) ;;
    for_each_fold activities [] (fun result act =>
      participants <- all (select_Participant (fun p =>
                        (Participant.activity_id p =? Activity.id act)%Z)) ;;
      ret (dict_set (Activity.name act)
                    (View.mk (Activity.description act) (Activity.schedule act)
                             (Activity.max_participants act)
                             (map Participant.email participants))
                    result))).

Definition get_activities : Store -> Store * outcome (dict View.t) :=
  activities_to_dict.

(** The dict [GET /activities] answers with. *)
Definition listing (s : Store) : dict View.t :=
  match snd (get_activities s) with
  | Returned d => d
  | Raised _ => []
  end.

(** The entry of one activity in the listing of a store. *)
Definition listing_entry (s : Store) (act : Activity.t) : View.t :=
  View.mk (Activity.description act) (Activity.schedule act)
          (Activity.max_participants act)
          (map Participant.email (participants_of s act)).

(** Every Participant row refers to an Activity row. *)
Definition references_resolve (s : Store) : Prop :=
  forall p, In p (participants s) ->
    exists a, In a (activities s) /\ Activity.id a = Participant.activity_id p.

(** The catalog literal [initial], read as the listing it describes. *)
Definition initial_listing : dict View.t :=
  map (fun item : string * seed_entry =>
         let (name, data) := item in
         (name, View.mk (seed_description data) (seed_schedule data)
                        (seed_max_participants data) (seed_participants data)))
      initial.

End Program.

(** The stores the program can be in: the seeded one, and whatever the two
    endpoints make of it, call after call, whether a call succeeds or
    fails.  The engine is free to pick its keys anew at every call. *)
Inductive reachable : Store -> Prop :=
| reachable_seeded {engine : Engine} : reachable (@seeded engine)
| reachable_handle {engine : Engine} (r : request) (s : Store) :
    reachable s -> reachable (@handle engine r s).

(** * Properties *)

Section Operations.
Context {engine : Engine}.

(** ** The endpoints, with the session unfolded *)

Lemma signup_for_activity_unfold activity_name email s :
  signup_for_activity activity_name email s =
  match named_activity s activity_name with
  | None => (s, Raised (HTTPException 404 "Activity not found"))
  | Some a =>
      if existsb (String.eqb email) (map Participant.email (participants_of s a))
      then (s, Raised (HTTPException 400 "Student is already signed up"))
      else if (Z.of_nat (List.length (participants_of s a))
               >=? Activity.max_participants a)%Z
      then (s, Raised (HTTPException 400 "Activity is full"))
      else (mkStore (activities s) (insert_by_key Participant.id (signup_row s a email) (participants s)),
            Returned ("Signed up " ++ email ++ " for " ++ activity_name))
  end.
Proof.
  destruct s as [acts parts].
  unfold signup_for_activity, with_Session, named_activity, participants_of,
    first, all, bind, select_Activity, ret; cbn [working activities participants].
  destruct (filter _ acts) as [|a rest]; cbn [hd_error]; [reflexivity|].
  unfold select_Participant, raise; cbn [working activities participants].
  destruct (existsb _ _); [reflexivity|].
  destruct (_ >=? _)%Z; reflexivity.
Qed.

Lemma unregister_from_activity_unfold activity_name email s :
  unregister_from_activity activity_name email s =
  match named_activity s activity_name with
  | None => (s, Raised (HTTPException 404 "Activity not found"))
  | Some a =>
      match hd_error (filter (fun p => (Participant.activity_id p =? Activity.id a)%Z
                                       && (Participant.email p =? email))
                             (participants s)) with
      | None => (s, Raised (HTTPException 400 "Student is not signed up for this activity"))
      | Some p =>
          (mkStore (activities s)
                   (filter (fun q => negb (Participant.id q =? Participant.id p)%Z)
                           (participants s)),
           Returned ("Unregistered " ++ email ++ " from " ++ activity_name))
      end
  end.
Proof.
  destruct s as [acts parts].
  unfold unregister_from_activity, with_Session, named_activity,
    first, bind, select_Activity, ret; cbn [working activities participants].
  destruct (filter _ acts) as [|a rest]; cbn [hd_error]; [reflexivity|].
  unfold select_Participant, raise; cbn [working activities participants].
  destruct (filter _ parts) as [|p rest']; reflexivity.
Qed.

(** ** Facts about the queries *)

Lemma named_activity_none s activity_name :
  (forall a, In a (activities s) -> Activity.name a <> activity_name) ->
  named_activity s activity_name = None.
Proof.
  unfold named_activity. intros Hno.
  induction (activities s) as [|a l IH]; [reflexivity|].
  cbn [filter]. destruct (String.eqb_spec (Activity.name a) activity_name) as [E|_].
  - exfalso. apply (Hno a); [left; reflexivity | exact E].
  - apply IH. intros b Hb. apply Hno. right. exact Hb.
Qed.

Lemma named_activity_some s activity_name a :
  named_activity s activity_name = Some a ->
  In a (activities s) /\ Activity.name a = activity_name.
Proof.
  unfold named_activity. intros H.
  assert (Hin : In a (filter (fun a => Activity.name a =? activity_name) (activities s))).
  { destruct (filter _ _) as [|b l]; [discriminate|].
    injection H as ->. left; reflexivity. }
  apply filter_In in Hin. destruct Hin as [Hin E].
  split; [exact Hin | apply String.eqb_eq; exact E].
Qed.

(** With names unique, as the index on [Activity.name] makes them, the
    named activity is the one row of that name. *)
Lemma named_activity_unique s a :
  NoDup (map Activity.name (activities s)) ->
  In a (activities s) ->
  named_activity s (Activity.name a) = Some a.
Proof.
  unfold named_activity.
  induction (activities s) as [|b l IH]; cbn [map filter]; intros Hnd Hin; [destruct Hin|].
  inversion Hnd as [|x l' Hb Hl]; subst.
  destruct (String.eqb_spec (Activity.name b) (Activity.name a)) as [E|N].
  - destruct Hin as [-> | Hin]; [reflexivity|].
    exfalso. apply Hb. rewrite E. apply in_map. exact Hin.
  - destruct Hin as [-> | Hin]; [contradiction N; reflexivity|].
    exact (IH Hl Hin).
Qed.

Lemma signed_up_existsb s a email :
  existsb (String.eqb email) (map Participant.email (participants_of s a)) = true
  <-> signed_up s a email.
Proof.
  unfold signed_up, participants_of. rewrite existsb_exists. split.
  - intros (e & Hin & E). apply String.eqb_eq in E. subst e.
    apply in_map_iff in Hin. destruct Hin as (p & Ep & Hp).
    apply filter_In in Hp. destruct Hp as [Hp Hid].
    exists p. repeat split; [exact Hp | apply Z.eqb_eq; exact Hid | exact Ep].
  - intros (p & Hp & Hid & Ep). exists email. split; [|apply String.eqb_refl].
    apply in_map_iff. exists p. split; [exact Ep|].
    apply filter_In. split; [exact Hp | apply Z.eqb_eq; exact Hid].
Qed.

Lemma not_signed_up_existsb s a email :
  ~ signed_up s a email ->
  existsb (String.eqb email) (map Participant.email (participants_of s a)) = false.
Proof.
  intros H. destruct (existsb _ _) eqn:E; [|reflexivity].
  exfalso. apply H. apply signed_up_existsb. exact E.
Qed.

Lemma no_matching_row s a email :
  ~ signed_up s a email ->
  filter (fun p => (Participant.activity_id p =? Activity.id a)%Z
                   && (Participant.email p =? email)) (participants s) = [].
Proof.
  intros H. unfold signed_up in H.
  induction (participants s) as [|p l IH]; [reflexivity|].
  cbn [filter].
  destruct (Z.eqb_spec (Participant.activity_id p) (Activity.id a)) as [E1|N1];
    destruct (String.eqb_spec (Participant.email p) email) as [E2|N2]; cbn [andb];
    try (apply IH; intros (q & Hq & Hq'); apply H; exists q; split; [right; exact Hq | exact Hq']).
  exfalso. apply H. exists p. repeat split; [left; reflexivity | exact E1 | exact E2].
Qed.

(** ** Error paths *)

(** C3: when no Activity row has the requested name, signup and unregister
    both raise HTTP 404 ("Activity not found") and the store is left as it
    was. *)
Theorem unknown_activity_404 (s : Store) (activity_name email : string) :
  (forall a, In a (activities s) -> Activity.name a <> activity_name) ->
  signup_for_activity activity_name email s
    = (s, Raised (HTTPException 404 "Activity not found"))
  /\ unregister_from_activity activity_name email s
    = (s, Raised (HTTPException 404 "Activity not found")).
Proof.
  intros Hno. apply named_activity_none in Hno.
  rewrite signup_for_activity_unfold, unregister_from_activity_unfold, Hno.
  split; reflexivity.
Qed.

(** C4: when the named activity exists and the email is already among its
    participants, signup raises HTTP 400 ("Student is already signed up")
    and the store is left as it was. *)
Theorem duplicate_signup_400 (s : Store) (activity_name email : string) (a : Activity.t) :
  named_activity s activity_name = Some a ->
  signed_up s a email ->
  signup_for_activity activity_name email s
    = (s, Raised (HTTPException 400 "Student is already signed up")).
Proof.
  intros Ha Hin. apply signed_up_existsb in Hin.
  rewrite signup_for_activity_unfold, Ha, Hin. reflexivity.
Qed.

(** C5: when the named activity exists, the email is not among its
    participants and the number of its participants has reached
    max_participants, signup raises HTTP 400 ("Activity is full") and the
    store is left as it was. *)
Theorem full_activity_400 (s : Store) (activity_name email : string) (a : Activity.t) :
  named_activity s activity_name = Some a ->
  ~ signed_up s a email ->
  (Z.of_nat (List.length (participants_of s a)) >= Activity.max_participants a)%Z ->
  signup_for_activity activity_name email s
    = (s, Raised (HTTPException 400 "Activity is full")).
Proof.
  intros Ha Hout Hfull.
  rewrite signup_for_activity_unfold, Ha, (not_signed_up_existsb _ _ _ Hout).
  destruct (Z.geb_spec (Z.of_nat (List.length (participants_of s a)))
                       (Activity.max_participants a)) as [_|Hlt].
  - reflexivity.
  - lia.
Qed.

Lemma duet_full_stranger : ~ signed_up duet_full duet "zoe@mergington.edu".
Proof.
  intros H. apply signed_up_existsb in H. vm_compute in H. discriminate H.
Qed.

(** C6: when the named activity exists and no Participant row links it to
    the email, unregister fails with its error for a signup that is not
    there, HTTP 400 ("Student is not signed up for this activity"), and
    the store is left as it was. *)
Theorem unregister_absent_400 (s : Store) (activity_name email : string) (a : Activity.t) :
  named_activity s activity_name = Some a ->
  ~ signed_up s a email ->
  unregister_from_activity activity_name email s
    = (s, Raised (HTTPException 400 "Student is not signed up for this activity")).
Proof.
  intros Ha Hout.
  rewrite unregister_from_activity_unfold, Ha, (no_matching_row _ _ _ Hout).
  reflexivity.
Qed.

Lemma seeded_stranger : ~ signed_up seeded chess_club "zoe@mergington.edu".
Proof.
  intros H. apply signed_up_existsb in H. vm_compute in H. discriminate H.
Qed.

(** ** Key allocation and list facts *)

Lemma fold_max_upper (d : Z) (l : list Z) (x : Z) :
  x = d \/ In x l -> (x <= fold_right Z.max d l)%Z.
Proof.
  induction l as [|y l IH]; cbn [fold_right In].
  - intros [-> | []]. lia.
  - intros [E | [E | Hin]].
    + specialize (IH (or_introl E)). lia.
    + subst y. lia.
    + specialize (IH (or_intror Hin)). lia.
Qed.

Lemma next_rowid_unused (ids : list Z) : ~ In (next_rowid ids) ids.
Proof.
  destruct ids as [|j rest]; [intros []|].
  unfold next_rowid.
  destruct (fold_right Z.max j rest <? max_rowid)%Z; [|apply random_rowid_unused].
  intros Hin.
  assert (fold_right Z.max j rest + 1 <= fold_right Z.max j rest)%Z; [|lia].
  apply fold_max_upper. destruct Hin as [E | Hin]; [left; symmetry; exact E | right; exact Hin].
Qed.

Lemma signup_row_fresh s a email p :
  In p (participants s) -> Participant.id p <> Participant.id (signup_row s a email).
Proof.
  intros Hin E. cbn [signup_row Participant.id] in E.
  apply (next_rowid_unused (map Participant.id (participants s))).
  rewrite <- E. apply in_map. exact Hin.
Qed.

(** Where a row inserted by key ends up: somewhere in the table, with the
    rows that were there around it, in their order. *)
Lemma insert_by_key_split {A} (key : A -> Z) (row : A) (l : list A) :
  exists before after,
    l = (before ++ after)%list
    /\ insert_by_key key row l = (before ++ row :: after)%list.
Proof.
  induction l as [|x l (before & after & El & Ei)]; cbn [insert_by_key].
  - exists [], []. split; reflexivity.
  - destruct (key row <? key x)%Z.
    + exists [], (x :: l). split; reflexivity.
    + exists (x :: before), after. cbn [app]. rewrite <- El, Ei. split; reflexivity.
Qed.

(** With a key above all the others, the row is the last of the table. *)
Lemma insert_by_key_last {A} (key : A -> Z) (row : A) (l : list A) :
  (forall x, In x l -> (key x < key row)%Z) ->
  insert_by_key key row l = (l ++ [row])%list.
Proof.
  induction l as [|x l IH]; intros H; cbn [insert_by_key app]; [reflexivity|].
  destruct (Z.ltb_spec (key row) (key x)) as [Hlt|_].
  - specialize (H x (or_introl eq_refl)). lia.
  - f_equal. apply IH. intros y Hy. apply H. right. exact Hy.
Qed.

(** While keys count up, that is while every key in use is below
    [max_rowid], the row of a signup is the last of the table. *)
Lemma signup_row_last s a email :
  (forall p, In p (participants s) -> (Participant.id p < max_rowid)%Z) ->
  insert_by_key Participant.id (signup_row s a email) (participants s)
  = (participants s ++ [signup_row s a email])%list.
Proof.
  intros Hbelow. apply insert_by_key_last.
  intros p Hp. cbn [signup_row Participant.id].
  assert (Hin : In (Participant.id p) (map Participant.id (participants s)))
    by (apply in_map; exact Hp).
  destruct (map Participant.id (participants s)) as [|j rest] eqn:E; [destruct Hin|].
  unfold next_rowid.
  assert (Hmax : (Participant.id p <= fold_right Z.max j rest)%Z).
  { apply fold_max_upper. destruct Hin as [H | H]; [left; symmetry; exact H | right; exact H]. }
  assert (Hlim : (fold_right Z.max j rest < max_rowid)%Z).
  { assert (Hall : forall k, In k (j :: rest) -> (k < max_rowid)%Z).
    { intros k Hk. rewrite <- E in Hk. apply in_map_iff in Hk.
      destruct Hk as (q & <- & Hq). exact (Hbelow q Hq). }
    clear - Hall. revert j Hall. induction rest as [|y l IH]; intros j Hall; cbn [fold_right].
    - apply Hall. left. reflexivity.
    - assert (y < max_rowid)%Z by (apply Hall; right; left; reflexivity).
      assert (fold_right Z.max j l < max_rowid)%Z.
      { apply IH. intros k [<- | Hk]; apply Hall; [left; reflexivity | right; right; exact Hk]. }
      lia. }
  apply Z.ltb_lt in Hlim. rewrite Hlim. lia.
Qed.

Lemma in_insert_by_key {A} (key : A -> Z) (row : A) (l : list A) (x : A) :
  In x (insert_by_key key row l) <-> x = row \/ In x l.
Proof.
  destruct (insert_by_key_split key row l) as (before & after & -> & ->).
  rewrite !in_app_iff. cbn [In]. intuition (subst; auto).
Qed.

Lemma filter_insert_by_key {A} (key : A -> Z) (f : A -> bool) (row : A) (l : list A) :
  exists before after,
    filter f l = (before ++ after)%list
    /\ filter f (insert_by_key key row l)
       = (before ++ (if f row then [row] else []) ++ after)%list.
Proof.
  destruct (insert_by_key_split key row l) as (before & after & -> & ->).
  exists (filter f before), (filter f after).
  rewrite !filter_app. cbn [filter]. destruct (f row); split; reflexivity.
Qed.

Lemma NoDup_map_insert_by_key {A B} (key : A -> Z) (g : A -> B) (row : A) (l : list A) :
  NoDup (map g l) -> ~ In (g row) (map g l) -> NoDup (map g (insert_by_key key row l)).
Proof.
  destruct (insert_by_key_split key row l) as (before & after & -> & ->).
  rewrite !map_app. cbn [map]. intros Hnd Hin.
  apply NoDup_Add with (a := g row) (l := (map g before ++ map g after)%list);
    [apply Add_app | split; assumption].
Qed.

Lemma filter_all {A} (f : A -> bool) (l : list A) :
  (forall x, In x l -> f x = true) -> filter f l = l.
Proof.
  induction l as [|x l IH]; intros H; [reflexivity|].
  cbn [filter]. rewrite (H x (or_introl eq_refl)). f_equal.
  apply IH. intros y Hy. apply H. right. exact Hy.
Qed.

Lemma filter_length_filter {A} (f g : A -> bool) (l : list A) :
  (List.length (filter f (filter g l)) <= List.length (filter f l))%nat.
Proof.
  induction l as [|x l IH]; [reflexivity|].
  cbn [filter]. destruct (g x), (f x) eqn:E; cbn [filter List.length]; rewrite ?E;
    cbn [List.length]; lia.
Qed.

Lemma NoDup_map_filter {A B} (f : A -> B) (g : A -> bool) (l : list A) :
  NoDup (map f l) -> NoDup (map f (filter g l)).
Proof.
  induction l as [|x l IH]; cbn [map filter]; intros H; [constructor|].
  inversion H as [|y l' Hx Hl]; subst.
  destruct (g x); cbn [map]; [|exact (IH Hl)].
  constructor; [|exact (IH Hl)].
  intros Hin. apply Hx. apply in_map_iff in Hin. destruct Hin as (z & Ez & Hz).
  apply filter_In in Hz. apply in_map_iff. exists z. split; [exact Ez | apply Hz].
Qed.

Lemma NoDup_map_injective {A B} (f : A -> B) (l : list A) (x y : A) :
  NoDup (map f l) -> In x l -> In y l -> f x = f y -> x = y.
Proof.
  induction l as [|z l IH]; cbn [map]; intros H Hx Hy E; [destruct Hx|].
  inversion H as [|w l' Hz Hl]; subst.
  destruct Hx as [-> | Hx], Hy as [-> | Hy].
  - reflexivity.
  - exfalso. apply Hz. rewrite E. apply in_map. exact Hy.
  - exfalso. apply Hz. rewrite <- E. apply in_map. exact Hx.
  - exact (IH Hl Hx Hy E).
Qed.

Lemma filter_insert_by_key_length {A} (key : A -> Z) (f : A -> bool) (row : A)
      (l : list A) :
  List.length (filter f (insert_by_key key row l))
  = (List.length (filter f l) + (if f row then 1 else 0))%nat.
Proof.
  destruct (filter_insert_by_key key f row l) as (before & after & -> & ->).
  rewrite !length_app. destruct (f row); cbn [List.length]; lia.
Qed.

Lemma only_match_inserted {A} (key : A -> Z) (f : A -> bool) (row : A) (l : list A) :
  f row = true -> filter f l = [] -> filter f (insert_by_key key row l) = [row].
Proof.
  intros Hrow Hnone.
  destruct (filter_insert_by_key key f row l) as (before & after & Ef & Ei).
  rewrite Hnone in Ef. symmetry in Ef. apply app_eq_nil in Ef. destruct Ef as [-> ->].
  rewrite Ei, Hrow. reflexivity.
Qed.

Lemma delete_inserted (row : Participant.t) (l : list Participant.t) :
  (forall q, In q l -> Participant.id q <> Participant.id row) ->
  filter (fun q => negb (Participant.id q =? Participant.id row)%Z)
         (insert_by_key Participant.id row l) = l.
Proof.
  intros Hfresh.
  destruct (filter_insert_by_key Participant.id
              (fun q => negb (Participant.id q =? Participant.id row)%Z) row l)
    as (before & after & Ef & Ei).
  rewrite Ei, Z.eqb_refl. cbn [negb app]. rewrite <- Ef.
  apply filter_all. intros q Hq. apply negb_true_iff, Z.eqb_neq. exact (Hfresh q Hq).
Qed.

(** What [session.delete] does to a table with distinct keys, when given
    the first row a query matches: that row leaves, nothing else moves. *)
Lemma delete_first_match (f : Participant.t -> bool) (l : list Participant.t)
      (p : Participant.t) :
  NoDup (map Participant.id l) ->
  hd_error (filter f l) = Some p ->
  exists before after,
    l = (before ++ p :: after)%list
    /\ f p = true
    /\ (forall q, In q before -> f q = false)
    /\ filter (fun q => negb (Participant.id q =? Participant.id p)%Z) l
       = (before ++ after)%list.
Proof.
  induction l as [|x l IH]; cbn [map filter]; intros Hnd Hp; [discriminate Hp|].
  inversion Hnd as [|y l' Hx Hl]; subst.
  destruct (f x) eqn:Efx.
  - cbn [hd_error] in Hp. injection Hp as ->.
    exists [], l. cbn [app]. repeat split; [exact Efx | intros q [] |].
    rewrite Z.eqb_refl. cbn [negb]. apply filter_all.
    intros q Hq. apply negb_true_iff, Z.eqb_neq. intros E.
    apply Hx. rewrite <- E. apply in_map. exact Hq.
  - destruct (IH Hl Hp) as (before & after & El & Efp & Hbefore & Hdel).
    exists (x :: before), after. cbn [app]. repeat split.
    + f_equal. exact El.
    + exact Efp.
    + intros q [<- | Hq]; [exact Efx | exact (Hbefore q Hq)].
    + assert (Hne : Participant.id x <> Participant.id p).
      { intros E. apply Hx. rewrite E. apply in_map. rewrite El.
        apply in_or_app. right. left. reflexivity. }
      apply Z.eqb_neq in Hne. rewrite Hne. cbn [negb]. f_equal. exact Hdel.
Qed.

Lemma first_matching_row s a email :
  signed_up s a email ->
  exists p, hd_error (filter (fun p => (Participant.activity_id p =? Activity.id a)%Z
                                       && (Participant.email p =? email))
                             (participants s)) = Some p.
Proof.
  intros (p & Hp & Hid & He).
  assert (Hin : In p (filter (fun p => (Participant.activity_id p =? Activity.id a)%Z
                                       && (Participant.email p =? email))
                             (participants s))).
  { apply filter_In. split; [exact Hp|].
    apply andb_true_iff. split; [apply Z.eqb_eq; exact Hid | apply String.eqb_eq; exact He]. }
  destruct (filter _ _) as [|q rest]; [destruct Hin | exists q; reflexivity].
Qed.

(** ** Successful calls *)

(** C7: when the named activity exists, the email is not among its
    participants and it has fewer participants than max_participants,
    signup returns its confirmation message, and the new store is the old
    one with exactly one more Participant row: the row carries a key no
    old row has, the activity's id and the email, and stands where its key
    puts it among the old rows, which are all there in their order.  The
    Activity table is as it was. *)
Theorem signup_success (s : Store) (activity_name email : string) (a : Activity.t) :
  named_activity s activity_name = Some a ->
  ~ signed_up s a email ->
  (Z.of_nat (List.length (participants_of s a)) < Activity.max_participants a)%Z ->
  exists row before after,
    participants s = (before ++ after)%list
    /\ signup_for_activity activity_name email s
       = (mkStore (activities s) (before ++ row :: after),
          Returned ("Signed up " ++ email ++ " for " ++ activity_name))
    /\ Participant.activity_id row = Activity.id a
    /\ Participant.email row = email
    /\ (forall p, In p (participants s) -> Participant.id p <> Participant.id row).
Proof.
  intros Ha Hout Hroom.
  destruct (insert_by_key_split Participant.id (signup_row s a email) (participants s))
    as (before & after & Eold & Enew).
  exists (signup_row s a email), before, after.
  rewrite signup_for_activity_unfold, Ha, (not_signed_up_existsb _ _ _ Hout).
  destruct (Z.geb_spec (Z.of_nat (List.length (participants_of s a)))
                       (Activity.max_participants a)) as [Hfull|_]; [lia|].
  rewrite Enew. repeat split; [exact Eold|].
  intros p. apply signup_row_fresh.
Qed.

(** C8: when the named activity exists and some Participant row links it
    to the email, unregister returns its confirmation message, and the new
    store is the old one without the first such row: the rows before it
    and after it stay, in order, and the Activity table is as it was.
    Participant keys are distinct, as the primary key makes them. *)
Theorem unregister_success (s : Store) (activity_name email : string) (a : Activity.t) :
  participant_keys_distinct s ->
  named_activity s activity_name = Some a ->
  signed_up s a email ->
  exists p before after,
    participants s = (before ++ p :: after)%list
    /\ Participant.activity_id p = Activity.id a
    /\ Participant.email p = email
    /\ (forall q, In q before ->
          ~ (Participant.activity_id q = Activity.id a /\ Participant.email q = email))
    /\ unregister_from_activity activity_name email s
       = (mkStore (activities s) (before ++ after),
          Returned ("Unregistered " ++ email ++ " from " ++ activity_name)).
Proof.
  intros Hkeys Ha Hin.
  destruct (first_matching_row s a email Hin) as (p & Hp).
  destruct (delete_first_match _ _ p Hkeys Hp) as (before & after & El & Efp & Hbefore & Hdel).
  apply andb_true_iff in Efp. destruct Efp as [Hid He].
  exists p, before, after. repeat split.
  - exact El.
  - apply Z.eqb_eq. exact Hid.
  - apply String.eqb_eq. exact He.
  - intros q Hq [Eid Ee]. specialize (Hbefore q Hq).
    apply Z.eqb_eq in Eid. apply String.eqb_eq in Ee.
    rewrite Eid, Ee in Hbefore. discriminate Hbefore.
  - rewrite unregister_from_activity_unfold, Ha, Hp, Hdel. reflexivity.
Qed.

Lemma seeded_keys_distinct : participant_keys_distinct seeded.
Proof.
  unfold participant_keys_distinct.
  let ids := eval vm_compute in (map Participant.id (participants seeded)) in
  change (map Participant.id (participants seeded)) with ids.
  repeat (constructor; [cbn [In]; lia|]). constructor.
Qed.

Lemma seeded_daniel : signed_up seeded chess_club "daniel@mergington.edu".
Proof.
  exists (Participant.mk 2 1 "daniel@mergington.edu").
  split; [vm_compute; tauto | split; reflexivity].
Qed.

(** C10: a successful signup followed by unregistering the same email from
    the same activity succeeds and gives back the store the signup
    started from, Participant table and all. *)
Theorem unregister_undoes_signup (s s' : Store) (activity_name email message : string) :
  signup_for_activity activity_name email s = (s', Returned message) ->
  unregister_from_activity activity_name email s'
    = (s, Returned ("Unregistered " ++ email ++ " from " ++ activity_name))
  /\ participants (fst (unregister_from_activity activity_name email s'))
     = participants s.
Proof.
  intros Hsignup.
  assert (Hgoal : unregister_from_activity activity_name email s'
                  = (s, Returned ("Unregistered " ++ email ++ " from " ++ activity_name)));
    [|rewrite Hgoal; split; reflexivity].
  rewrite signup_for_activity_unfold in Hsignup.
  destruct (named_activity s activity_name) as [a|] eqn:Ha; [|discriminate Hsignup].
  destruct (existsb _ _) eqn:Hout; [discriminate Hsignup|].
  destruct (_ >=? _)%Z; [discriminate Hsignup|].
  injection Hsignup as <- _.
  assert (Hnot : ~ signed_up s a email).
  { intros H. apply signed_up_existsb in H. rewrite H in Hout. discriminate Hout. }
  rewrite unregister_from_activity_unfold.
  change (named_activity (mkStore (activities s) (insert_by_key Participant.id (signup_row s a email) (participants s)))
                         activity_name)
    with (named_activity s activity_name).
  rewrite Ha. cbn [participants activities].
  rewrite (only_match_inserted Participant.id _ (signup_row s a email) (participants s));
    [|cbn [signup_row Participant.activity_id Participant.email];
      rewrite Z.eqb_refl, String.eqb_refl; reflexivity
     |exact (no_matching_row _ _ _ Hnot)].
  cbn [hd_error].
  rewrite delete_inserted by (intros q Hq; exact (signup_row_fresh s a email q Hq)).
  destruct s; reflexivity.
Qed.

(** ** The seeder *)

Lemma seed_noop (s : Store) :
  activities s <> [] -> seed_initial_activities s = (s, Returned tt).
Proof.
  destruct s as [[|a acts] parts]; intros H; [contradiction H; reflexivity|].
  reflexivity.
Qed.

Lemma seed_empty_store : seed_initial_activities empty_store = (seeded, Returned tt).
Proof. vm_compute. reflexivity. Qed.

Lemma seeded_activities_nonempty : activities seeded <> [].
Proof. vm_compute. discriminate. Qed.

(** C9: seeding the empty store returns normally with 9 activities, each
    with exactly 2 participants; seeding a store that holds an Activity row
    changes nothing; so seeding twice from the empty store leaves the 9
    activities of the first run. *)
Theorem seed_once_nine_activities :
  seed_initial_activities empty_store = (seeded, Returned tt)
  /\ List.length (activities seeded) = 9%nat
  /\ (forall a, In a (activities seeded) ->
        List.length (participants_of seeded a) = 2%nat)
  /\ (forall s, activities s <> [] -> seed_initial_activities s = (s, Returned tt))
  /\ seed_initial_activities (fst (seed_initial_activities empty_store))
     = (seeded, Returned tt)
  /\ List.length
       (activities (fst (seed_initial_activities
                           (fst (seed_initial_activities empty_store))))) = 9%nat.
Proof.
  assert (Hsecond : seed_initial_activities (fst (seed_initial_activities empty_store))
                    = (seeded, Returned tt)).
  { rewrite seed_empty_store. cbn [fst]. exact (seed_noop seeded seeded_activities_nonempty). }
  split; [exact seed_empty_store|].
  split; [vm_compute; reflexivity|].
  split.
  { intros a Hin. vm_compute in Hin.
    repeat (destruct Hin as [<- | Hin]; [vm_compute; reflexivity|]). destruct Hin. }
  split; [exact seed_noop|].
  split; [exact Hsecond|].
  rewrite Hsecond. vm_compute. reflexivity.
Qed.

(** ** Invariants of the reachable stores *)

(** Neither endpoint writes to the Activity table. *)
Lemma handle_activities r s : activities (handle r s) = activities s.
Proof.
  destruct r as [n e | n e]; cbn [handle].
  - rewrite signup_for_activity_unfold.
    destruct (named_activity s n) as [a|]; [|reflexivity].
    destruct (existsb _ _); [reflexivity|].
    destruct (_ >=? _)%Z; reflexivity.
  - rewrite unregister_from_activity_unfold.
    destruct (named_activity s n) as [a|]; [|reflexivity].
    destruct (hd_error _); reflexivity.
Qed.

Lemma seeded_activity_keys : NoDup (map Activity.id (activities seeded)).
Proof.
  let ids := eval vm_compute in (map Activity.id (activities seeded)) in
  change (map Activity.id (activities seeded)) with ids.
  repeat (constructor; [cbn [In]; lia|]). constructor.
Qed.

Lemma seeded_within_capacity : within_capacity seeded.
Proof.
  intros a Hin. vm_compute in Hin.
  repeat (destruct Hin as [<- | Hin]; [vm_compute; discriminate|]). destruct Hin.
Qed.

Lemma seeded_no_duplicate_signup : no_duplicate_signup seeded.
Proof.
  unfold no_duplicate_signup.
  let pairs := eval vm_compute in (map signup_pair (participants seeded)) in
  change (map signup_pair (participants seeded)) with pairs.
  repeat (constructor;
          [cbn [In]; intros H;
           repeat (destruct H as [H | H]; [discriminate H|]); exact H|]).
  constructor.
Qed.

(** One request keeps the capacity bound, in a store whose Activity keys
    are distinct. *)
Lemma handle_within_capacity r s :
  NoDup (map Activity.id (activities s)) ->
  within_capacity s -> within_capacity (handle r s).
Proof.
  intros Hkeys Hcap. destruct r as [n e | n e]; cbn [handle].
  - rewrite signup_for_activity_unfold.
    destruct (named_activity s n) as [a|] eqn:Ha; [|exact Hcap].
    destruct (existsb _ _); [exact Hcap|].
    destruct (Z.geb_spec (Z.of_nat (List.length (participants_of s a)))
                         (Activity.max_participants a)) as [_|Hroom]; [exact Hcap|].
    cbn [fst]. intros b Hb. cbn [activities] in Hb.
    unfold participants_of. cbn [participants].
    rewrite filter_insert_by_key_length. cbn [signup_row Participant.activity_id].
    destruct (Z.eqb_spec (Activity.id a) (Activity.id b)) as [E|_].
    + apply named_activity_some in Ha. destruct Ha as [Hain _].
      assert (a = b) by exact (NoDup_map_injective _ _ _ _ Hkeys Hain Hb E).
      subst b. unfold participants_of in Hroom. lia.
    + specialize (Hcap b Hb). unfold participants_of in Hcap. lia.
  - rewrite unregister_from_activity_unfold.
    destruct (named_activity s n) as [a|]; [|exact Hcap].
    destruct (hd_error _) as [p|]; [|exact Hcap].
    cbn [fst]. intros b Hb. cbn [activities] in Hb.
    specialize (Hcap b Hb). unfold participants_of in *. cbn [participants].
    pose proof (filter_length_filter
                  (fun q => (Participant.activity_id q =? Activity.id b)%Z)
                  (fun q => negb (Participant.id q =? Participant.id p)%Z)
                  (participants s)).
    lia.
Qed.

(** One request keeps the (activity_id, email) pairs distinct. *)
Lemma handle_no_duplicate_signup r s :
  no_duplicate_signup s -> no_duplicate_signup (handle r s).
Proof.
  unfold no_duplicate_signup. intros Hnd. destruct r as [n e | n e]; cbn [handle].
  - rewrite signup_for_activity_unfold.
    destruct (named_activity s n) as [a|]; [|exact Hnd].
    destruct (existsb _ _) eqn:Hout; [exact Hnd|].
    destruct (_ >=? _)%Z; [exact Hnd|].
    cbn [fst participants]. apply NoDup_map_insert_by_key; [exact Hnd|].
    intros Hin. apply in_map_iff in Hin. destruct Hin as (p & Ep & Hp).
    unfold signup_pair in Ep. cbn [signup_row Participant.activity_id Participant.email] in Ep.
    injection Ep as Eid Ee.
    assert (Hs : signed_up s a e) by (exists p; repeat split; assumption).
    apply signed_up_existsb in Hs. rewrite Hs in Hout. discriminate Hout.
  - rewrite unregister_from_activity_unfold.
    destruct (named_activity s n) as [a|]; [|exact Hnd].
    destruct (hd_error _) as [p|]; [|exact Hnd].
    cbn [fst participants]. apply NoDup_map_filter. exact Hnd.
Qed.

(** One request keeps the Participant keys distinct, so the hypothesis of
    [unregister_success] holds in every store the program reaches. *)
Lemma handle_keys_distinct r s :
  participant_keys_distinct s -> participant_keys_distinct (handle r s).
Proof.
  unfold participant_keys_distinct. intros Hnd. destruct r as [n e | n e]; cbn [handle].
  - rewrite signup_for_activity_unfold.
    destruct (named_activity s n) as [a|]; [|exact Hnd].
    destruct (existsb _ _); [exact Hnd|].
    destruct (_ >=? _)%Z; [exact Hnd|].
    cbn [fst participants]. apply NoDup_map_insert_by_key; [exact Hnd|].
    cbn [signup_row Participant.id]. apply next_rowid_unused.
  - rewrite unregister_from_activity_unfold.
    destruct (named_activity s n) as [a|]; [|exact Hnd].
    destruct (hd_error _) as [p|]; [|exact Hnd].
    cbn [fst participants]. apply NoDup_map_filter. exact Hnd.
Qed.

(** * Further properties of the endpoints *)

(** ** Failing and succeeding requests, read backwards *)

(** X1: whatever signup raises is one of its three HTTP errors (404 unknown
    activity, 400 already signed up, 400 full), and the store is then the
    one the request found. *)
Theorem signup_raises_atomically (s s' : Store) (activity_name email : string) (e : exn) :
  signup_for_activity activity_name email s = (s', Raised e) ->
  s' = s
  /\ (e = HTTPException 404 "Activity not found"
      \/ e = HTTPException 400 "Student is already signed up"
      \/ e = HTTPException 400 "Activity is full").
Proof.
  rewrite signup_for_activity_unfold.
  destruct (named_activity s activity_name) as [a|].
  - destruct (existsb _ _).
    + intros H. injection H as <- <-. split; [reflexivity | right; left; reflexivity].
    + destruct (_ >=? _)%Z; intros H; [|discriminate H].
      injection H as <- <-. split; [reflexivity | right; right; reflexivity].
  - intros H. injection H as <- <-. split; [reflexivity | left; reflexivity].
Qed.

(** X2: whatever unregister raises is one of its two HTTP errors (404
    unknown activity, 400 not signed up), and the store is then the one the
    request found. *)
Theorem unregister_raises_atomically (s s' : Store) (activity_name email : string) (e : exn) :
  unregister_from_activity activity_name email s = (s', Raised e) ->
  s' = s
  /\ (e = HTTPException 404 "Activity not found"
      \/ e = HTTPException 400 "Student is not signed up for this activity").
Proof.
  rewrite unregister_from_activity_unfold.
  destruct (named_activity s activity_name) as [a|].
  - destruct (hd_error _); intros H; [discriminate H|].
    injection H as <- <-. split; [reflexivity | right; reflexivity].
  - intros H. injection H as <- <-. split; [reflexivity | left; reflexivity].
Qed.

(** X3: signup returns only when the named activity exists, the email was
    not among its participants and it had room; what it returns is then
    the message naming email and activity, and the store with the one new
    row, which has a key no other row has and stands where that key puts
    it among the old rows. *)
Theorem signup_returns_only_if (s s' : Store) (activity_name email message : string) :
  signup_for_activity activity_name email s = (s', Returned message) ->
  exists a before after,
    named_activity s activity_name = Some a
    /\ ~ signed_up s a email
    /\ (Z.of_nat (List.length (participants_of s a)) < Activity.max_participants a)%Z
    /\ message = "Signed up " ++ email ++ " for " ++ activity_name
    /\ participants s = (before ++ after)%list
    /\ s' = mkStore (activities s) (before ++ signup_row s a email :: after)
    /\ (forall p, In p (participants s) ->
          Participant.id p <> Participant.id (signup_row s a email)).
Proof.
  rewrite signup_for_activity_unfold.
  destruct (named_activity s activity_name) as [a|]; [|intros H; discriminate H].
  destruct (existsb _ _) eqn:Hout; [intros H; discriminate H|].
  destruct (Z.geb_spec (Z.of_nat (List.length (participants_of s a)))
                       (Activity.max_participants a)) as [_|Hroom];
    intros H; [discriminate H|].
  injection H as <- <-.
  destruct (insert_by_key_split Participant.id (signup_row s a email) (participants s))
    as (before & after & Eold & Enew).
  exists a, before, after. rewrite Enew.
  repeat split; [|exact Hroom | exact Eold | intros p; apply signup_row_fresh].
  intros Hin. apply signed_up_existsb in Hin. rewrite Hin in Hout. discriminate Hout.
Qed.

(** X4: unregister returns only when the named activity exists and a
    Participant row links it to the email; the store is then the old one
    without the rows carrying the key of the first such row, and the
    message names email and activity. *)
Theorem unregister_returns_only_if (s s' : Store) (activity_name email message : string) :
  unregister_from_activity activity_name email s = (s', Returned message) ->
  exists a p,
    named_activity s activity_name = Some a
    /\ In p (participants s)
    /\ Participant.activity_id p = Activity.id a
    /\ Participant.email p = email
    /\ message = "Unregistered " ++ email ++ " from " ++ activity_name
    /\ s' = mkStore (activities s)
                    (filter (fun q => negb (Participant.id q =? Participant.id p)%Z)
                            (participants s)).
Proof.
  rewrite unregister_from_activity_unfold.
  destruct (named_activity s activity_name) as [a|]; [|intros H; discriminate H].
  destruct (hd_error _) as [p|] eqn:Hp; intros H; [|discriminate H].
  injection H as <- <-. exists a, p.
  assert (Hin : In p (filter (fun p => (Participant.activity_id p =? Activity.id a)%Z
                                       && (Participant.email p =? email))
                             (participants s))).
  { destruct (filter _ _) as [|q rest]; [discriminate Hp|].
    injection Hp as ->. left. reflexivity. }
  apply filter_In in Hin. destruct Hin as [Hin Hm].
  apply andb_true_iff in Hm. destruct Hm as [Hid He].
  repeat split; [exact Hin | apply Z.eqb_eq; exact Hid | apply String.eqb_eq; exact He].
Qed.

(** ** Requests in sequence *)

Lemma signed_up_after_signup s a email :
  signed_up (mkStore (activities s) (insert_by_key Participant.id (signup_row s a email) (participants s))) a email.
Proof.
  exists (signup_row s a email). cbn [participants]. repeat split.
  apply in_insert_by_key. left. reflexivity.
Qed.

(** X5: a signup that succeeded cannot be repeated: the same request on
    the new store raises HTTP 400 ("Student is already signed up") and
    leaves that store as it is. *)
Theorem signup_twice_conflicts (s s' : Store) (activity_name email message : string) :
  signup_for_activity activity_name email s = (s', Returned message) ->
  signup_for_activity activity_name email s'
    = (s', Raised (HTTPException 400 "Student is already signed up")).
Proof.
  rewrite (signup_for_activity_unfold activity_name email s).
  destruct (named_activity s activity_name) as [a|] eqn:Ha; [|intros H; discriminate H].
  destruct (existsb _ _); [intros H; discriminate H|].
  destruct (_ >=? _)%Z; intros H; [discriminate H|].
  injection H as <- _.
  rewrite signup_for_activity_unfold.
  change (named_activity (mkStore (activities s) (insert_by_key Participant.id (signup_row s a email) (participants s)))
                         activity_name)
    with (named_activity s activity_name).
  rewrite Ha.
  pose proof (signed_up_after_signup s a email) as Hin.
  apply signed_up_existsb in Hin. rewrite Hin. reflexivity.
Qed.

(** In a store without duplicate signups, deleting the first row that
    links an activity to an email leaves no row that does. *)
Lemma unregistered_after_delete s a email p :
  no_duplicate_signup s ->
  In p (participants s) ->
  Participant.activity_id p = Activity.id a ->
  Participant.email p = email ->
  ~ signed_up (mkStore (activities s)
                 (filter (fun q => negb (Participant.id q =? Participant.id p)%Z)
                         (participants s))) a email.
Proof.
  intros Hnd Hp Hid He (q & Hq & Hqid & Hqe). cbn [participants] in Hq.
  apply filter_In in Hq. destruct Hq as [Hq Hne].
  apply negb_true_iff, Z.eqb_neq in Hne.
  assert (q = p); [|subst q; apply Hne; reflexivity].
  apply (NoDup_map_injective signup_pair (participants s)); [exact Hnd | exact Hq | exact Hp |].
  unfold signup_pair. rewrite Hqid, Hqe, Hid, He. reflexivity.
Qed.

(** X6: where no (activity_id, email) pair is stored twice, an unregister
    that succeeded cannot be repeated: the same request on the new store
    raises HTTP 400 ("Student is not signed up for this activity") and
    leaves that store as it is. *)
Theorem unregister_twice_fails (s s' : Store) (activity_name email message : string) :
  no_duplicate_signup s ->
  unregister_from_activity activity_name email s = (s', Returned message) ->
  unregister_from_activity activity_name email s'
    = (s', Raised (HTTPException 400 "Student is not signed up for this activity")).
Proof.
  intros Hnd.
  rewrite (unregister_from_activity_unfold activity_name email s).
  destruct (named_activity s activity_name) as [a|] eqn:Ha; [|intros H; discriminate H].
  destruct (hd_error _) as [p|] eqn:Hp; intros H; [|discriminate H].
  injection H as <- _.
  assert (Hin : In p (filter (fun p => (Participant.activity_id p =? Activity.id a)%Z
                                       && (Participant.email p =? email))
                             (participants s))).
  { destruct (filter _ _) as [|q rest]; [discriminate Hp|].
    injection Hp as ->. left. reflexivity. }
  apply filter_In in Hin. destruct Hin as [Hin Hm].
  apply andb_true_iff in Hm. destruct Hm as [Hid He].
  apply Z.eqb_eq in Hid. apply String.eqb_eq in He.
  rewrite unregister_from_activity_unfold.
  change (named_activity
            (mkStore (activities s)
               (filter (fun q => negb (Participant.id q =? Participant.id p)%Z)
                       (participants s))) activity_name)
    with (named_activity s activity_name).
  rewrite Ha.
  rewrite (no_matching_row _ _ _ (unregistered_after_delete s a email p Hnd Hin Hid He)).
  reflexivity.
Qed.

(** X7: an activity whose max_participants is zero or negative (zero is
    the column's default) takes no signup: every request for it raises
    HTTP 400 and leaves the store as it is. *)
Theorem no_room_no_signup (s : Store) (activity_name email : string) (a : Activity.t) :
  named_activity s activity_name = Some a ->
  (Activity.max_participants a <= 0)%Z ->
  exists detail,
    signup_for_activity activity_name email s = (s, Raised (HTTPException 400 detail)).
Proof.
  intros Ha Hmax. rewrite signup_for_activity_unfold, Ha.
  destruct (existsb _ _); [eexists; reflexivity|].
  destruct (Z.geb_spec (Z.of_nat (List.length (participants_of s a)))
                       (Activity.max_participants a)) as [_|Hroom];
    [eexists; reflexivity | lia].
Qed.

(** X8: what the endpoints never do.  Neither writes to the Activity
    table; signup removes no Participant row and unregister adds none. *)
Theorem endpoints_never (s : Store) (activity_name email : string) :
  activities (fst (signup_for_activity activity_name email s)) = activities s
  /\ activities (fst (unregister_from_activity activity_name email s)) = activities s
  /\ (forall p, In p (participants s) ->
        In p (participants (fst (signup_for_activity activity_name email s))))
  /\ (forall p, In p (participants (fst (unregister_from_activity activity_name email s))) ->
        In p (participants s)).
Proof.
  split; [exact (handle_activities (Signup activity_name email) s)|].
  split; [exact (handle_activities (Unregister activity_name email) s)|].
  split.
  - intros p Hp. rewrite signup_for_activity_unfold.
    destruct (named_activity s activity_name) as [a|]; [|exact Hp].
    destruct (existsb _ _); [exact Hp|].
    destruct (_ >=? _)%Z; [exact Hp|].
    cbn [fst participants]. apply in_insert_by_key. right. exact Hp.
  - intros p. rewrite unregister_from_activity_unfold.
    destruct (named_activity s activity_name) as [a|]; [|exact (fun H => H)].
    destruct (hd_error _); [|exact (fun H => H)].
    cbn [fst participants]. intros Hp. apply filter_In in Hp. apply Hp.
Qed.

Lemma filter_length_drop {A} (f g : A -> bool) (l : list A) (x : A) :
  In x l -> f x = true -> g x = false ->
  (List.length (filter f (filter g l)) < List.length (filter f l))%nat.
Proof.
  induction l as [|y l IH]; intros Hin Hf Hg; [destruct Hin|].
  cbn [filter]. destruct Hin as [-> | Hin].
  - rewrite Hg, Hf. cbn [List.length].
    pose proof (filter_length_filter f g l). lia.
  - specialize (IH Hin Hf Hg).
    destruct (g y), (f y) eqn:E; cbn [filter List.length]; rewrite ?E;
      cbn [List.length]; lia.
Qed.

(** X9: where activities are within capacity and no (activity_id, email)
    pair is stored twice, an unregister that succeeded can always be taken
    back: signing the email up again for the activity returns. *)
Theorem signup_after_unregister (s s' : Store) (activity_name email message : string) :
  within_capacity s ->
  no_duplicate_signup s ->
  unregister_from_activity activity_name email s = (s', Returned message) ->
  exists s'',
    signup_for_activity activity_name email s'
    = (s'', Returned ("Signed up " ++ email ++ " for " ++ activity_name)).
Proof.
  intros Hcap Hnd.
  rewrite (unregister_from_activity_unfold activity_name email s).
  destruct (named_activity s activity_name) as [a|] eqn:Ha; [|intros H; discriminate H].
  destruct (hd_error _) as [p|] eqn:Hp; intros H; [|discriminate H].
  injection H as <- _.
  assert (Hin : In p (filter (fun p => (Participant.activity_id p =? Activity.id a)%Z
                                       && (Participant.email p =? email))
                             (participants s))).
  { destruct (filter _ _) as [|q rest]; [discriminate Hp|].
    injection Hp as ->. left. reflexivity. }
  apply filter_In in Hin. destruct Hin as [Hin Hm].
  apply andb_true_iff in Hm. destruct Hm as [Hid He].
  rewrite signup_for_activity_unfold.
  change (named_activity
            (mkStore (activities s)
               (filter (fun q => negb (Participant.id q =? Participant.id p)%Z)
                       (participants s))) activity_name)
    with (named_activity s activity_name).
  rewrite Ha.
  rewrite (not_signed_up_existsb _ _ _
             (unregistered_after_delete s a email p Hnd Hin
                (proj1 (Z.eqb_eq _ _) Hid) (proj1 (String.eqb_eq _ _) He))).
  destruct (Z.geb_spec
              (Z.of_nat (List.length
                 (participants_of
                    (mkStore (activities s)
                       (filter (fun q => negb (Participant.id q =? Participant.id p)%Z)
                               (participants s))) a)))
              (Activity.max_participants a)) as [Hfull|_].
  - exfalso. unfold participants_of in Hfull. cbn [participants] in Hfull.
    pose proof (filter_length_drop
                  (fun q => (Participant.activity_id q =? Activity.id a)%Z)
                  (fun q => negb (Participant.id q =? Participant.id p)%Z)
                  (participants s) p Hin Hid) as Hdrop.
    cbv beta in Hdrop. rewrite Z.eqb_refl in Hdrop. specialize (Hdrop eq_refl).
    apply named_activity_some in Ha. destruct Ha as [Hain _].
    specialize (Hcap a Hain). unfold participants_of in Hcap. lia.
  - eexists. reflexivity.
Qed.

(** ** More invariants of the reachable stores *)

Lemma references_resolve_forallb s :
  forallb (fun p => existsb (fun a => (Activity.id a =? Participant.activity_id p)%Z)
                            (activities s))
          (participants s) = true ->
  references_resolve s.
Proof.
  intros H p Hp. rewrite forallb_forall in H. specialize (H p Hp).
  apply existsb_exists in H. destruct H as (a & Ha & E).
  exists a. split; [exact Ha | apply Z.eqb_eq; exact E].
Qed.

Lemma seeded_references_resolve : references_resolve seeded.
Proof. apply references_resolve_forallb. vm_compute. reflexivity. Qed.

Lemma handle_references_resolve r s :
  references_resolve s -> references_resolve (handle r s).
Proof.
  intros Href. destruct r as [n e | n e]; cbn [handle].
  - rewrite signup_for_activity_unfold.
    destruct (named_activity s n) as [a|] eqn:Ha; [|exact Href].
    destruct (existsb _ _); [exact Href|].
    destruct (_ >=? _)%Z; [exact Href|].
    cbn [fst]. intros p Hp. cbn [participants activities] in *.
    apply in_insert_by_key in Hp. destruct Hp as [-> | Hp].
    + exists a. split; [apply (named_activity_some _ _ _ Ha) | reflexivity].
    + exact (Href p Hp).
  - rewrite unregister_from_activity_unfold.
    destruct (named_activity s n) as [a|]; [|exact Href].
    destruct (hd_error _) as [q|]; [|exact Href].
    cbn [fst]. intros p Hp. cbn [participants activities] in *.
    apply filter_In in Hp. exact (Href p (proj1 Hp)).
Qed.

Lemma StronglySorted_insert_by_key {A} (key : A -> Z) (row : A) (l : list A) :
  StronglySorted Z.lt (map key l) ->
  ~ In (key row) (map key l) ->
  StronglySorted Z.lt (map key (insert_by_key key row l)).
Proof.
  induction l as [|x l IH]; cbn [map insert_by_key]; intros Hs Hfresh.
  - constructor; constructor.
  - inversion Hs as [|y l' Hl Hx]; subst.
    destruct (Z.ltb_spec (key row) (key x)) as [Hlt|Hge]; cbn [map].
    + constructor; [exact Hs|].
      constructor; [exact Hlt|].
      rewrite Forall_forall in *. intros z Hz. specialize (Hx z Hz). lia.
    + assert (Hne : key x <> key row)
        by (intros E; apply Hfresh; left; exact E).
      constructor.
      * apply IH; [exact Hl | intros Hin; apply Hfresh; right; exact Hin].
      * rewrite Forall_forall in *. intros z Hz.
        apply in_map_iff in Hz. destruct Hz as (w & <- & Hw).
        apply in_insert_by_key in Hw. destruct Hw as [-> | Hw]; [lia|].
        apply Hx. apply in_map. exact Hw.
Qed.

Lemma StronglySorted_map_filter {A} (f : A -> Z) (g : A -> bool) (l : list A) :
  StronglySorted Z.lt (map f l) -> StronglySorted Z.lt (map f (filter g l)).
Proof.
  induction l as [|x l IH]; cbn [map filter]; intros H; [constructor|].
  inversion H as [|y l' Hl Hx]; subst.
  destruct (g x); cbn [map]; [|exact (IH Hl)].
  constructor; [exact (IH Hl)|].
  rewrite Forall_forall in *. intros z Hz. apply Hx.
  apply in_map_iff in Hz. destruct Hz as (w & Ew & Hw).
  apply filter_In in Hw. apply in_map_iff. exists w. split; [exact Ew | apply Hw].
Qed.

Lemma seeded_rowid_order : StronglySorted Z.lt (map Participant.id (participants seeded)).
Proof.
  let ids := eval vm_compute in (map Participant.id (participants seeded)) in
  change (map Participant.id (participants seeded)) with ids.
  repeat (constructor; [|repeat (constructor; [lia|]); constructor]). constructor.
Qed.

Lemma handle_rowid_order r s :
  StronglySorted Z.lt (map Participant.id (participants s)) ->
  StronglySorted Z.lt (map Participant.id (participants (handle r s))).
Proof.
  intros Hs. destruct r as [n e | n e]; cbn [handle].
  - rewrite signup_for_activity_unfold.
    destruct (named_activity s n) as [a|]; [|exact Hs].
    destruct (existsb _ _); [exact Hs|].
    destruct (_ >=? _)%Z; [exact Hs|].
    cbn [fst participants]. apply StronglySorted_insert_by_key; [exact Hs|].
    cbn [signup_row Participant.id]. apply next_rowid_unused.
  - rewrite unregister_from_activity_unfold.
    destruct (named_activity s n) as [a|]; [|exact Hs].
    destruct (hd_error _) as [p|]; [|exact Hs].
    cbn [fst participants]. apply StronglySorted_map_filter. exact Hs.
Qed.

(** ** The seeder on stores that are not empty *)



(** * The listing *)

Lemma listing_loop (l : list Activity.t) (acc : dict View.t) (ss : Session) :
  for_each_fold l acc (fun result act =>
      participants <- all (select_Participant (fun p =>
                        (Participant.activity_id p =? Activity.id act)%Z)) ;;
      ret (dict_set (Activity.name act)
                    (View.mk (Activity.description act) (Activity.schedule act)
                             (Activity.max_participants act)
                             (map Participant.email participants))
                    result)) ss
  = (ss, Returned (fold_left (fun d act =>
                     dict_set (Activity.name act) (listing_entry (working ss) act) d)
                   l acc)).
Proof.
  revert acc. induction l as [|act l IH]; intros acc; [reflexivity|].
  cbn [for_each_fold fold_left]. unfold bind at 1.
  unfold all, select_Participant, bind, ret at 1. cbn beta iota.
  rewrite IH. reflexivity.
Qed.

Lemma activities_to_dict_unfold (s : Store) :
  activities_to_dict s
  = (s, Returned (fold_left (fun d act =>
                    dict_set (Activity.name act) (listing_entry s act) d)
                  (activities s) [])).
Proof.
  unfold activities_to_dict, with_Session, bind at 1, all, select_Activity.
  cbn [working]. rewrite listing_loop. cbn [committed working].
  rewrite filter_all; [reflexivity | intros; reflexivity].
Qed.

Lemma dict_set_keys {V} (k : string) (v : V) (d : dict V) (x : string) :
  In x (map fst (dict_set k v d)) <-> x = k \/ In x (map fst d).
Proof.
  induction d as [|[k' v'] d IH]; cbn [dict_set map fst In].
  - split; [intros [E | []]; left; symmetry; exact E | intros [E | []]; left; symmetry; exact E].
  - destruct (String.eqb_spec k' k) as [E|N]; cbn [map fst In].
    + subst k'. intuition (subst; auto).
    + rewrite IH. tauto.
Qed.

Lemma dict_set_NoDup {V} (k : string) (v : V) (d : dict V) :
  NoDup (map fst d) -> NoDup (map fst (dict_set k v d)).
Proof.
  induction d as [|[k' v'] d IH]; cbn [dict_set map fst]; intros H.
  - constructor; [intros [] | constructor].
  - inversion H as [|y l Hk Hd]; subst.
    destruct (String.eqb_spec k' k) as [E|N]; cbn [map fst].
    + constructor; assumption.
    + constructor; [|exact (IH Hd)].
      rewrite dict_set_keys. intros [E | Hin]; [apply N; exact E | exact (Hk Hin)].
Qed.

Lemma dict_set_new {V} (k : string) (v : V) (d : dict V) :
  ~ In k (map fst d) -> dict_set k v d = (d ++ [(k, v)])%list.
Proof.
  induction d as [|[k' v'] d IH]; cbn [dict_set map fst In app]; intros H; [reflexivity|].
  destruct (String.eqb_spec k' k) as [E|_]; [exfalso; apply H; left; exact E|].
  f_equal. apply IH. intros Hin. apply H. right. exact Hin.
Qed.

Lemma fold_dict_set_distinct (f : Activity.t -> View.t) (l : list Activity.t)
      (acc : dict View.t) :
  NoDup (map Activity.name l) ->
  (forall a, In a l -> ~ In (Activity.name a) (map fst acc)) ->
  fold_left (fun d act => dict_set (Activity.name act) (f act) d) l acc
  = (acc ++ map (fun a => (Activity.name a, f a)) l)%list.
Proof.
  revert acc. induction l as [|a l IH]; cbn [fold_left map]; intros acc Hnd Hacc.
  - rewrite app_nil_r. reflexivity.
  - inversion Hnd as [|x l' Ha Hl]; subst.
    rewrite (dict_set_new _ _ _ (Hacc a (or_introl eq_refl))).
    rewrite IH; [rewrite <- app_assoc; reflexivity | exact Hl |].
    intros b Hb. rewrite map_app, in_app_iff. cbn [map fst In].
    intros [Hin | [E | []]].
    + exact (Hacc b (or_intror Hb) Hin).
    + apply Ha. rewrite E. apply in_map. exact Hb.
Qed.

Lemma fold_dict_set_keys (f : Activity.t -> View.t) (l : list Activity.t)
      (acc : dict View.t) :
  let d := fold_left (fun d act => dict_set (Activity.name act) (f act) d) l acc in
  (NoDup (map fst acc) -> NoDup (map fst d))
  /\ (forall n, In n (map fst d) <-> In n (map fst acc) \/ In n (map Activity.name l)).
Proof.
  revert acc. induction l as [|a l IH]; cbn [fold_left map In]; intros acc.
  - split; [exact (fun H => H) | intros n; tauto].
  - destruct (IH (dict_set (Activity.name a) (f a) acc)) as [IHnd IHkeys].
    split.
    + intros H. apply IHnd. apply dict_set_NoDup. exact H.
    + intros n. rewrite IHkeys, dict_set_keys.
      split; [intros [[E | H] | H] | intros [H | [E | H]]]; auto.
Qed.

Lemma dict_get_entries {V} (f : Activity.t -> V) (l : list Activity.t) (n : string) :
  dict_get (map (fun a => (Activity.name a, f a)) l) n
  = option_map f (hd_error (filter (fun a => Activity.name a =? n) l)).
Proof.
  induction l as [|a l IH]; cbn [map dict_get filter]; [reflexivity|].
  destruct (Activity.name a =? n); [reflexivity | exact IH].
Qed.

(** X14: whatever the store, [GET /activities] returns without raising and
    leaves the store as it is; the dict it returns has each activity name
    as a key, once, and no other key. *)
Theorem get_activities_reads_only (s : Store) :
  exists d,
    get_activities s = (s, Returned d)
    /\ NoDup (map fst d)
    /\ (forall n, In n (map fst d) <-> In n (map Activity.name (activities s))).
Proof.
  unfold get_activities. rewrite activities_to_dict_unfold. eexists.
  split; [reflexivity|].
  destruct (fold_dict_set_keys (listing_entry s) (activities s) []) as [Hnd Hkeys].
  split; [apply Hnd; constructor|].
  intros n. rewrite (Hkeys n). cbn [map In]. tauto.
Qed.

(** X15: with activity names unique, as the table's index keeps them, the
    listing has one item per Activity row, in table order: the name, then
    description, schedule and max_participants of the row and the emails
    of the Participant rows that carry the row's id, in table order. *)
Theorem listing_follows_tables (s : Store) :
  NoDup (map Activity.name (activities s)) ->
  activities_to_dict s
  = (s, Returned (map (fun a => (Activity.name a, listing_entry s a)) (activities s))).
Proof.
  intros Hnd. rewrite activities_to_dict_unfold.
  rewrite (fold_dict_set_distinct (listing_entry s) (activities s) [] Hnd);
    [reflexivity | intros a _ []].
Qed.

Lemma seeded_names_unique : NoDup (map Activity.name (activities seeded)).
Proof.
  let names := eval vm_compute in (map Activity.name (activities seeded)) in
  change (map Activity.name (activities seeded)) with names.
  repeat (constructor;
          [cbn [In]; intros H;
           repeat (destruct H as [H | H]; [discriminate H|]); exact H|]).
  constructor.
Qed.

Lemma listing_lookup (s : Store) (n : string) :
  NoDup (map Activity.name (activities s)) ->
  dict_get (listing s) n = option_map (listing_entry s) (named_activity s n).
Proof.
  intros Hnd. unfold listing, get_activities.
  rewrite activities_to_dict_unfold. cbn [snd].
  rewrite (fold_dict_set_distinct (listing_entry s) (activities s) [] Hnd);
    [|intros a _ []].
  cbn [app]. apply dict_get_entries.
Qed.

Lemma listing_entry_after_signup s a email b :
  exists before after,
    View.participants (listing_entry s b) = (before ++ after)%list
    /\ listing_entry
         (mkStore (activities s)
            (insert_by_key Participant.id (signup_row s a email) (participants s))) b
       = View.mk (Activity.description b) (Activity.schedule b)
                 (Activity.max_participants b)
                 (before ++ (if (Activity.id a =? Activity.id b)%Z then [email] else [])
                  ++ after).
Proof.
  unfold listing_entry, participants_of. cbn [participants View.participants].
  destruct (filter_insert_by_key Participant.id
              (fun p => (Participant.activity_id p =? Activity.id b)%Z)
              (signup_row s a email) (participants s))
    as (before & after & Ef & Ei).
  exists (map Participant.email before), (map Participant.email after).
  rewrite Ef, Ei, !map_app. cbn [signup_row Participant.activity_id].
  destruct (Activity.id a =? Activity.id b)%Z; split; reflexivity.
Qed.

(** X16: with activity names and keys unique, a signup that succeeded
    shows in the listing: the entry of the named activity has the email
    added among the participants it had, which keep their order, its
    other fields are as before, and so is every other entry. *)
Theorem listing_after_signup (s s' : Store) (activity_name email message : string) :
  NoDup (map Activity.name (activities s)) ->
  NoDup (map Activity.id (activities s)) ->
  signup_for_activity activity_name email s = (s', Returned message) ->
  exists v before after,
    dict_get (listing s) activity_name = Some v
    /\ View.participants v = (before ++ after)%list
    /\ dict_get (listing s') activity_name
       = Some (View.mk (View.description v) (View.schedule v) (View.max_participants v)
                       (before ++ email :: after))
    /\ (forall other, other <> activity_name ->
          dict_get (listing s') other = dict_get (listing s) other).
Proof.
  intros Hnames Hkeys.
  rewrite signup_for_activity_unfold.
  destruct (named_activity s activity_name) as [a|] eqn:Ha; [|intros H; discriminate H].
  destruct (existsb _ _); [intros H; discriminate H|].
  destruct (_ >=? _)%Z; intros H; [discriminate H|].
  injection H as <- _.
  destruct (listing_entry_after_signup s a email a) as (before & after & Eold & Enew).
  exists (listing_entry s a), before, after.
  rewrite (listing_lookup s activity_name Hnames), Ha.
  split; [reflexivity|]. split; [exact Eold|].
  assert (Hlook : forall n,
            dict_get (listing (mkStore (activities s)
                                 (insert_by_key Participant.id (signup_row s a email)
                                    (participants s)))) n
            = option_map
                (listing_entry (mkStore (activities s)
                                  (insert_by_key Participant.id (signup_row s a email)
                                     (participants s))))
                (named_activity s n)).
  { intros n. exact (listing_lookup (mkStore (activities s) _) n Hnames). }
  split.
  - rewrite Hlook, Ha. cbn [option_map].
    rewrite Enew, Z.eqb_refl. reflexivity.
  - intros other Hother.
    rewrite Hlook, (listing_lookup s other Hnames).
    destruct (named_activity s other) as [b|] eqn:Hb; [|reflexivity].
    cbn [option_map]. f_equal.
    destruct (listing_entry_after_signup s a email b) as (bef & aft & Eb & Eb').
    rewrite Eb'.
    destruct (Z.eqb_spec (Activity.id a) (Activity.id b)) as [E|_].
    + exfalso. apply Hother.
      apply named_activity_some in Ha, Hb. destruct Ha as [Hain Hn], Hb as [Hbin Hm].
      assert (a = b) by exact (NoDup_map_injective _ _ _ _ Hkeys Hain Hbin E).
      subst b. rewrite <- Hm, Hn. reflexivity.
    + cbn [app]. rewrite <- Eb. reflexivity.
Qed.

Lemma listed_email_signed_up s a email :
  In email (View.participants (listing_entry s a)) -> signed_up s a email.
Proof.
  cbn [listing_entry View.participants]. intros Hin.
  apply signed_up_existsb. apply existsb_exists.
  exists email. split; [exact Hin | apply String.eqb_refl].
Qed.

(** X17: with activity names unique and no (activity_id, email) pair
    stored twice, an unregister that succeeded shows in the listing: the
    entry of the named activity no longer has the email. *)
Theorem listing_after_unregister (s s' : Store) (activity_name email message : string) :
  NoDup (map Activity.name (activities s)) ->
  no_duplicate_signup s ->
  unregister_from_activity activity_name email s = (s', Returned message) ->
  exists v,
    dict_get (listing s') activity_name = Some v
    /\ ~ In email (View.participants v).
Proof.
  intros Hnames Hnd.
  rewrite unregister_from_activity_unfold.
  destruct (named_activity s activity_name) as [a|] eqn:Ha; [|intros H; discriminate H].
  destruct (hd_error _) as [p|] eqn:Hp; intros H; [|discriminate H].
  injection H as <- _.
  assert (Hin : In p (filter (fun p => (Participant.activity_id p =? Activity.id a)%Z
                                       && (Participant.email p =? email))
                             (participants s))).
  { destruct (filter _ _) as [|q rest]; [discriminate Hp|].
    injection Hp as ->. left. reflexivity. }
  apply filter_In in Hin. destruct Hin as [Hin Hm].
  apply andb_true_iff in Hm. destruct Hm as [Hid He].
  apply Z.eqb_eq in Hid. apply String.eqb_eq in He.
  eexists. split.
  - rewrite (listing_lookup (mkStore (activities s) _) activity_name Hnames).
    change (named_activity (mkStore (activities s) _) activity_name)
      with (named_activity s activity_name).
    rewrite Ha. reflexivity.
  - intros Hlisted. apply listed_email_signed_up in Hlisted.
    exact (unregistered_after_delete s a email p Hnd Hin Hid He Hlisted).
Qed.

(** X18: seeding the empty store and then asking for the listing gives
    back the catalog the seeder was written with: the same nine names in
    the same order, each with its description, schedule, max_participants
    and its two emails in the order of the literal; the store is the
    seeded one still. *)
Theorem listing_of_seeded_store :
  get_activities (fst (seed_initial_activities empty_store))
  = (seeded, Returned initial_listing).
Proof.
  rewrite seed_empty_store. cbn [fst].
  unfold get_activities. rewrite (activities_to_dict_unfold seeded).
  vm_compute. reflexivity.
Qed.

Lemma emails_distinct (k : Z) (l : list Participant.t) :
  NoDup (map signup_pair l) ->
  NoDup (map Participant.email
           (filter (fun p => (Participant.activity_id p =? k)%Z) l)).
Proof.
  induction l as [|x l IH]; cbn [map filter]; intros H; [constructor|].
  inversion H as [|y l' Hx Hl]; subst.
  destruct (Z.eqb_spec (Participant.activity_id x) k) as [E|_]; [|exact (IH Hl)].
  cbn [map]. constructor; [|exact (IH Hl)].
  intros Hin. apply Hx. apply in_map_iff in Hin. destruct Hin as (q & Eq & Hq).
  apply filter_In in Hq. destruct Hq as [Hq Hk]. apply Z.eqb_eq in Hk.
  apply in_map_iff. exists q. split; [|exact Hq].
  unfold signup_pair. rewrite Eq, Hk, E. reflexivity.
Qed.

End Operations.

(** * Invariants of the reachable stores *)

Section Reachable.
Context {engine : Engine}.

Lemma reachable_activities s : reachable s -> activities s = activities seeded.
Proof.
  induction 1 as [e | e r s _ IH]; [vm_compute; reflexivity|].
  rewrite handle_activities. exact IH.
Qed.

Lemma reachable_keys_distinct s : reachable s -> participant_keys_distinct s.
Proof.
  induction 1 as [e | e r s _ IH]; [exact (@seeded_keys_distinct e)|].
  apply handle_keys_distinct. exact IH.
Qed.

Lemma reachable_bounds s : reachable s -> within_capacity s /\ no_duplicate_signup s.
Proof.
  induction 1 as [e | e r s Hreach [IHcap IHnd]].
  - split; [exact (@seeded_within_capacity e) | exact (@seeded_no_duplicate_signup e)].
  - split; [|exact (handle_no_duplicate_signup r s IHnd)].
    apply handle_within_capacity; [|exact IHcap].
    rewrite (reachable_activities s Hreach). exact seeded_activity_keys.
Qed.

Lemma sample_run_reachable : reachable sample_run.
Proof.
  unfold sample_run. do 3 apply reachable_handle. exact (@reachable_seeded engine).
Qed.

(** C1: in every store reachable from the seeded one by signup and
    unregister requests, every activity has at most max_participants
    participants. *)
Theorem reachable_within_capacity (s : Store) :
  reachable s -> within_capacity s.
Proof.
  induction 1 as [e | e r s Hreach IH]; [exact (@seeded_within_capacity e)|].
  apply handle_within_capacity; [|exact IH].
  rewrite (reachable_activities s Hreach). exact seeded_activity_keys.
Qed.

(** C2: in every store reachable from the seeded one by signup and
    unregister requests, no (activity_id, email) pair occurs in more than
    one Participant row. *)
Theorem reachable_no_duplicate_signup (s : Store) :
  reachable s -> no_duplicate_signup s.
Proof.
  induction 1 as [e | e r s _ IH]; [exact (@seeded_no_duplicate_signup e)|].
  apply handle_no_duplicate_signup. exact IH.
Qed.

(** X10: in every store reachable from the seeded one, every Participant
    row refers to an Activity row: no request leaves a signup for an
    activity that is not in the table. *)
Theorem reachable_references_resolve (s : Store) :
  reachable s -> references_resolve s.
Proof.
  induction 1 as [e | e r s _ IH]; [exact (@seeded_references_resolve e)|].
  apply handle_references_resolve. exact IH.
Qed.

(** X11: in every store reachable from the seeded one, whatever keys the
    engine hands out, the Participant rows stand in strictly increasing
    order of their keys: the table is in the order in which the queries of
    the handlers read it, and no key is used twice. *)
Theorem reachable_rowid_order (s : Store) :
  reachable s -> StronglySorted Z.lt (map Participant.id (participants s)).
Proof.
  induction 1 as [e | e r s _ IH]; [exact (@seeded_rowid_order e)|].
  apply handle_rowid_order. exact IH.
Qed.

(** X12: starting the process again on any store the endpoints have
    produced seeds nothing: the seeder returns with the store as it found
    it, every signup and unregister made so far included. *)
Theorem restart_keeps_store (s : Store) :
  reachable s -> seed_initial_activities s = (s, Returned tt).
Proof.
  intros Hreach. apply seed_noop.
  rewrite (reachable_activities s Hreach). exact seeded_activities_nonempty.
Qed.

(** X19: in every store reachable from the seeded one, each entry of the
    listing has at most max_participants participants and names no email
    twice. *)
Theorem reachable_listing_bounds (s : Store) (activity_name : string) (v : View.t) :
  reachable s ->
  dict_get (listing s) activity_name = Some v ->
  (Z.of_nat (List.length (View.participants v)) <= View.max_participants v)%Z
  /\ NoDup (View.participants v).
Proof.
  intros Hreach Hv.
  destruct (reachable_bounds s Hreach) as [Hcap Hnd].
  rewrite listing_lookup in Hv
    by (rewrite (reachable_activities s Hreach); exact seeded_names_unique).
  destruct (named_activity s activity_name) as [a|] eqn:Ha; [|discriminate Hv].
  cbn [option_map] in Hv. injection Hv as <-.
  cbn [listing_entry View.participants View.max_participants].
  split.
  - rewrite length_map. apply Hcap. apply (named_activity_some _ _ _ Ha).
  - apply emails_distinct. exact Hnd.
Qed.

End Reachable.

(** * Concrete runs *)

Lemma sample_random_rowid_unused (ids : list Z) :
  ~ In (sample_random_rowid ids) ids.
Proof.
  unfold sample_random_rowid.
  destruct (existsb _ ids) eqn:E.
  - assert (H : forall x, In x ids -> (x <= fold_right Z.max 0 ids)%Z).
    { clear E. induction ids as [|y l IH]; cbn [fold_right In]; [intros x []|].
      intros x [-> | Hx]; [lia | specialize (IH x Hx); lia]. }
    intros Hin. specialize (H _ Hin). lia.
  - intros Hin.
    assert (Hex : existsb (Z.eqb 648803432001634345) ids = true).
    { apply existsb_exists. eexists. split; [exact Hin | apply Z.eqb_refl]. }
    rewrite Hex in E. discriminate E.
Qed.

#[export] Instance sample_engine : Engine :=
  {| random_rowid := sample_random_rowid;
     random_rowid_unused := sample_random_rowid_unused |}.

Lemma unknown_activity_404_witness :
  (forall a, In a (activities seeded) -> Activity.name a <> "Knitting Circle")
  /\ signup_for_activity "Knitting Circle" "emma@mergington.edu" seeded
       = (seeded, Raised (HTTPException 404 "Activity not found"))
  /\ unregister_from_activity "Knitting Circle" "emma@mergington.edu" seeded
       = (seeded, Raised (HTTPException 404 "Activity not found")).
Proof.
  assert (H : forall a, In a (activities seeded) -> Activity.name a <> "Knitting Circle").
  { intros a Hin. vm_compute in Hin.
    repeat (destruct Hin as [<- | Hin]; [discriminate|]). destruct Hin. }
  split; [exact H|].
  exact (unknown_activity_404 seeded "Knitting Circle" "emma@mergington.edu" H).
Defined.

Lemma duplicate_signup_400_witness :
  named_activity seeded "Chess Club" = Some chess_club
  /\ signed_up seeded chess_club "daniel@mergington.edu"
  /\ signup_for_activity "Chess Club" "daniel@mergington.edu" seeded
       = (seeded, Raised (HTTPException 400 "Student is already signed up")).
Proof.
  assert (Ha : named_activity seeded "Chess Club" = Some chess_club) by reflexivity.
  assert (Hin : signed_up seeded chess_club "daniel@mergington.edu").
  { exists (Participant.mk 2 1 "daniel@mergington.edu").
    split; [vm_compute; tauto | split; reflexivity]. }
  split; [exact Ha | split; [exact Hin|]].
  exact (duplicate_signup_400 seeded "Chess Club" "daniel@mergington.edu" chess_club Ha Hin).
Defined.

Lemma full_activity_400_witness :
  named_activity duet_full "Duet" = Some duet
  /\ (Z.of_nat (List.length (participants_of duet_full duet))
      >= Activity.max_participants duet)%Z
  /\ signup_for_activity "Duet" "zoe@mergington.edu" duet_full
       = (duet_full, Raised (HTTPException 400 "Activity is full")).
Proof.
  assert (Ha : named_activity duet_full "Duet" = Some duet) by reflexivity.
  assert (Hfull : (Z.of_nat (List.length (participants_of duet_full duet))
                   >= Activity.max_participants duet)%Z) by (vm_compute; discriminate).
  split; [exact Ha | split; [exact Hfull|]].
  exact (full_activity_400 duet_full "Duet" "zoe@mergington.edu" duet
           Ha duet_full_stranger Hfull).
Defined.

Lemma unregister_absent_400_witness :
  named_activity seeded "Chess Club" = Some chess_club
  /\ unregister_from_activity "Chess Club" "zoe@mergington.edu" seeded
       = (seeded, Raised (HTTPException 400 "Student is not signed up for this activity")).
Proof.
  assert (Ha : named_activity seeded "Chess Club" = Some chess_club) by reflexivity.
  split; [exact Ha|].
  exact (unregister_absent_400 seeded "Chess Club" "zoe@mergington.edu" chess_club
           Ha seeded_stranger).
Defined.

Lemma duet_at_limit_stranger : ~ signed_up duet_at_limit duet "zoe@mergington.edu".
Proof.
  intros H. apply signed_up_existsb in H. vm_compute in H. discriminate H.
Qed.

(** At the largest key the new row does not come last: with the sample
    engine it stands before the row that was there. *)
Lemma signup_at_key_limit :
  signup_for_activity "Duet" "zoe@mergington.edu" duet_at_limit
  = (mkStore [duet] [Participant.mk 648803432001634345 1 "zoe@mergington.edu";
                     Participant.mk max_rowid 1 "ava@mergington.edu"],
     Returned "Signed up zoe@mergington.edu for Duet").
Proof. vm_compute. reflexivity. Qed.

Lemma signup_success_witness :
  exists row before after,
    participants duet_at_limit = (before ++ after)%list
    /\ signup_for_activity "Duet" "zoe@mergington.edu" duet_at_limit
       = (mkStore (activities duet_at_limit) (before ++ row :: after),
          Returned ("Signed up " ++ "zoe@mergington.edu" ++ " for " ++ "Duet"))
    /\ Participant.activity_id row = Activity.id duet
    /\ Participant.email row = "zoe@mergington.edu"
    /\ (forall p, In p (participants duet_at_limit) ->
          Participant.id p <> Participant.id row).
Proof.
  apply (signup_success duet_at_limit "Duet" "zoe@mergington.edu" duet).
  - reflexivity.
  - exact duet_at_limit_stranger.
  - vm_compute. reflexivity.
Defined.

Lemma unregister_success_witness :
  exists p before after,
    participants seeded = (before ++ p :: after)%list
    /\ Participant.activity_id p = Activity.id chess_club
    /\ Participant.email p = "daniel@mergington.edu"
    /\ (forall q, In q before ->
          ~ (Participant.activity_id q = Activity.id chess_club
             /\ Participant.email q = "daniel@mergington.edu"))
    /\ unregister_from_activity "Chess Club" "daniel@mergington.edu" seeded
       = (mkStore (activities seeded) (before ++ after),
          Returned ("Unregistered " ++ "daniel@mergington.edu" ++ " from " ++ "Chess Club")).
Proof.
  apply (unregister_success seeded "Chess Club" "daniel@mergington.edu" chess_club).
  - exact seeded_keys_distinct.
  - vm_compute. reflexivity.
  - exact seeded_daniel.
Defined.

Lemma unregister_undoes_signup_witness :
  unregister_from_activity "Chess Club" "zoe@mergington.edu"
    (fst (signup_for_activity "Chess Club" "zoe@mergington.edu" seeded))
    = (seeded, Returned "Unregistered zoe@mergington.edu from Chess Club")
  /\ participants
       (fst (unregister_from_activity "Chess Club" "zoe@mergington.edu"
               (fst (signup_for_activity "Chess Club" "zoe@mergington.edu" seeded))))
     = participants seeded.
Proof.
  apply (unregister_undoes_signup seeded _ "Chess Club" "zoe@mergington.edu"
           "Signed up zoe@mergington.edu for Chess Club").
  vm_compute. reflexivity.
Defined.

Lemma reachable_within_capacity_witness : within_capacity sample_run.
Proof. exact (reachable_within_capacity sample_run sample_run_reachable). Defined.

Lemma reachable_no_duplicate_signup_witness : no_duplicate_signup sample_run.
Proof. exact (reachable_no_duplicate_signup sample_run sample_run_reachable). Defined.

Lemma signup_raises_atomically_witness :
  duet_full = duet_full
  /\ (HTTPException 400 "Activity is full" = HTTPException 404 "Activity not found"
      \/ HTTPException 400 "Activity is full" = HTTPException 400 "Student is already signed up"
      \/ HTTPException 400 "Activity is full" = HTTPException 400 "Activity is full").
Proof.
  apply (signup_raises_atomically duet_full duet_full "Duet" "zoe@mergington.edu").
  vm_compute. reflexivity.
Defined.

Lemma unregister_raises_atomically_witness :
  duet_full = duet_full
  /\ (HTTPException 404 "Activity not found" = HTTPException 404 "Activity not found"
      \/ HTTPException 404 "Activity not found"
         = HTTPException 400 "Student is not signed up for this activity").
Proof.
  apply (unregister_raises_atomically duet_full duet_full "Trio" "zoe@mergington.edu").
  vm_compute. reflexivity.
Defined.

Lemma signup_returns_only_if_witness :
  exists a before after,
    named_activity seeded "Chess Club" = Some a
    /\ ~ signed_up seeded a "zoe@mergington.edu"
    /\ (Z.of_nat (List.length (participants_of seeded a)) < Activity.max_participants a)%Z
    /\ "Signed up zoe@mergington.edu for Chess Club"
       = "Signed up " ++ "zoe@mergington.edu" ++ " for " ++ "Chess Club"
    /\ participants seeded = (before ++ after)%list
    /\ fst (signup_for_activity "Chess Club" "zoe@mergington.edu" seeded)
       = mkStore (activities seeded)
                 (before ++ signup_row seeded a "zoe@mergington.edu" :: after)
    /\ (forall p, In p (participants seeded) ->
          Participant.id p <> Participant.id (signup_row seeded a "zoe@mergington.edu")).
Proof.
  apply (signup_returns_only_if seeded _ "Chess Club" "zoe@mergington.edu").
  vm_compute. reflexivity.
Defined.

Lemma unregister_returns_only_if_witness :
  exists a p,
    named_activity seeded "Chess Club" = Some a
    /\ In p (participants seeded)
    /\ Participant.activity_id p = Activity.id a
    /\ Participant.email p = "daniel@mergington.edu"
    /\ "Unregistered daniel@mergington.edu from Chess Club"
       = "Unregistered " ++ "daniel@mergington.edu" ++ " from " ++ "Chess Club"
    /\ fst (unregister_from_activity "Chess Club" "daniel@mergington.edu" seeded)
       = mkStore (activities seeded)
                 (filter (fun q => negb (Participant.id q =? Participant.id p)%Z)
                         (participants seeded)).
Proof.
  apply (unregister_returns_only_if seeded _ "Chess Club" "daniel@mergington.edu").
  vm_compute. reflexivity.
Defined.

Lemma signup_twice_conflicts_witness :
  signup_for_activity "Chess Club" "zoe@mergington.edu"
    (fst (signup_for_activity "Chess Club" "zoe@mergington.edu" seeded))
  = (fst (signup_for_activity "Chess Club" "zoe@mergington.edu" seeded),
     Raised (HTTPException 400 "Student is already signed up")).
Proof.
  apply (signup_twice_conflicts seeded _ "Chess Club" "zoe@mergington.edu"
           "Signed up zoe@mergington.edu for Chess Club").
  vm_compute. reflexivity.
Defined.

Lemma unregister_twice_fails_witness :
  unregister_from_activity "Chess Club" "daniel@mergington.edu"
    (fst (unregister_from_activity "Chess Club" "daniel@mergington.edu" seeded))
  = (fst (unregister_from_activity "Chess Club" "daniel@mergington.edu" seeded),
     Raised (HTTPException 400 "Student is not signed up for this activity")).
Proof.
  apply (unregister_twice_fails seeded _ "Chess Club" "daniel@mergington.edu"
           "Unregistered daniel@mergington.edu from Chess Club").
  - exact seeded_no_duplicate_signup.
  - vm_compute. reflexivity.
Defined.

Lemma no_room_no_signup_witness :
  exists detail,
    signup_for_activity "Closed" "zoe@mergington.edu" (mkStore [closed_club] [])
    = (mkStore [closed_club] [], Raised (HTTPException 400 detail)).
Proof.
  apply (no_room_no_signup (mkStore [closed_club] []) "Closed" "zoe@mergington.edu"
           closed_club).
  - reflexivity.
  - vm_compute. discriminate.
Defined.

Lemma signup_after_unregister_witness :
  exists s'',
    signup_for_activity "Chess Club" "daniel@mergington.edu"
      (fst (unregister_from_activity "Chess Club" "daniel@mergington.edu" seeded))
    = (s'', Returned ("Signed up " ++ "daniel@mergington.edu" ++ " for " ++ "Chess Club")).
Proof.
  apply (signup_after_unregister seeded _ "Chess Club" "daniel@mergington.edu"
           "Unregistered daniel@mergington.edu from Chess Club").
  - exact seeded_within_capacity.
  - exact seeded_no_duplicate_signup.
  - vm_compute. reflexivity.
Defined.

Lemma reachable_references_resolve_witness : references_resolve sample_run.
Proof. exact (reachable_references_resolve sample_run sample_run_reachable). Defined.

Lemma reachable_rowid_order_witness :
  StronglySorted Z.lt (map Participant.id (participants sample_run)).
Proof. exact (reachable_rowid_order sample_run sample_run_reachable). Defined.

Lemma restart_keeps_store_witness :
  seed_initial_activities sample_run = (sample_run, Returned tt).
Proof. exact (restart_keeps_store sample_run sample_run_reachable). Defined.

Lemma listing_follows_tables_witness :
  activities_to_dict seeded
  = (seeded,
     Returned (map (fun a => (Activity.name a, listing_entry seeded a))
                   (activities seeded))).
Proof. exact (listing_follows_tables seeded seeded_names_unique). Defined.

Lemma listing_after_signup_witness :
  exists v before after,
    dict_get (listing duet_at_limit) "Duet" = Some v
    /\ View.participants v = (before ++ after)%list
    /\ dict_get (listing (fst (signup_for_activity "Duet" "zoe@mergington.edu"
                                 duet_at_limit))) "Duet"
       = Some (View.mk (View.description v) (View.schedule v) (View.max_participants v)
                       (before ++ "zoe@mergington.edu" :: after))
    /\ (forall other, other <> "Duet" ->
          dict_get (listing (fst (signup_for_activity "Duet" "zoe@mergington.edu"
                                    duet_at_limit))) other
          = dict_get (listing duet_at_limit) other).
Proof.
  apply (listing_after_signup duet_at_limit _ "Duet" "zoe@mergington.edu"
           "Signed up zoe@mergington.edu for Duet").
  - cbn. constructor; [intros [] | constructor].
  - cbn. constructor; [intros [] | constructor].
  - vm_compute. reflexivity.
Defined.

Lemma listing_after_unregister_witness :
  exists v,
    dict_get (listing (fst (unregister_from_activity "Chess Club" "daniel@mergington.edu"
                              seeded))) "Chess Club" = Some v
    /\ ~ In "daniel@mergington.edu" (View.participants v).
Proof.
  apply (listing_after_unregister seeded _ "Chess Club" "daniel@mergington.edu"
           "Unregistered daniel@mergington.edu from Chess Club").
  - exact seeded_names_unique.
  - exact seeded_no_duplicate_signup.
  - vm_compute. reflexivity.
Defined.

Lemma reachable_listing_bounds_witness :
  (Z.of_nat (List.length (View.participants (listing_entry sample_run chess_club)))
   <= View.max_participants (listing_entry sample_run chess_club))%Z
  /\ NoDup (View.participants (listing_entry sample_run chess_club)).
Proof.
  apply (reachable_listing_bounds sample_run "Chess Club").
  - exact sample_run_reachable.
  - vm_compute. reflexivity.
Defined.

